(** * mautrix-whatsapp: the bridge supervisor of [main.go]

    A shallow embedding of [main.go]: the command-line entry point, the
    construction and initialisation of the [Bridge], the start of its
    subsystems, the bot-profile update and the ordered shutdown.

    Every collaborator of [main.go] (configuration loader, app-service,
    logger, state store, persistence of users, portals and puppets, the
    WhatsApp connection of a user) is seen through the results its calls
    return; those results are collected in a [World].  A run of the program
    is a trace of observable events together with the way it ends
    (normal return, [os.Exit] with a code, blocked forever, or panic). *)

From stdpp Require Import gmap strings list fin_maps.
From Stdlib Require Import ZArith.

Local Open Scope string_scope.
Local Open Scope list_scope.
Local Open Scope Z_scope.

(** ** Basic types *)

(** A Go [error]: [None] is [nil]; a non-nil error is seen through its text. *)
Definition error : Type := option string.

(** [types.MatrixUserID], [types.WhatsAppID], [types.MatrixRoomID]. *)
Definition MatrixUserID : Type := string.
Definition WhatsAppID : Type := string.
Definition MatrixRoomID : Type := string.

(** [database.PortalKey]: remote conversation and receiving user. *)
Definition PortalKey : Type := (WhatsAppID * WhatsAppID)%type.

(** [whatsapp.Session], the resumable-session token, kept opaque. *)
Definition Session : Type := string.

(** A non-nil pointer to a Go object ([*User], [*Portal], [*Puppet]) and the
    identity of a live connection ([user.Conn]). *)
Definition ptr : Type := positive.
Definition ConnID : Type := positive.

(** [User], with the fields [Bridge.Stop] reads and writes. *)
Record User : Type := mkUser {
  MXID : MatrixUserID;
  JID : WhatsAppID;
  Conn : option ConnID;          (* nil when the user has no remote session *)
  UserSession : option Session   (* [user.Session], nil when none is stored *)
}.

(** [Puppet], with the fields [Bridge.StartUsers] reads. *)
Record Puppet : Type := mkPuppet {
  puppet_ptr : ptr;              (* the object the [*Puppet] points to *)
  CustomMXID : MatrixUserID
}.

(** [config.Config.AppService.Bot]. *)
Record BotConfig : Type := mkBotConfig {
  Displayname : string;
  Avatar : string
}.

Record Config_t : Type := mkConfig {
  Bot_config : BotConfig;
  StateStore_path : string
}.

(** The flags of lines 36-41, as [flag.Parse] leaves them. *)
Record Flags : Type := mkFlags {
  configPath : string;
  registrationPath : string;
  generateRegistration : bool;
  wantHelp : bool
}.

(** ** Channels

    A Go channel of booleans: its capacity and the values buffered in it. *)
Record Chan : Type := mkChan {
  chan_cap : nat;
  chan_buf : list bool
}.

(** [make(chan bool, n)]. *)
Definition make_chan (n : nat) : Chan := mkChan n [].

(** A send with no receiver waiting completes exactly when the buffer has
    room; [None] means the sending goroutine blocks. *)
Definition chan_send (c : Chan) (v : bool) : option Chan :=
  if (length (chan_buf c) <? chan_cap c)%nat
  then Some (mkChan (chan_cap c) (chan_buf c ++ [v]))
  else None.

(** A receive takes the oldest buffered value; [None] means that nothing is
    buffered and the receive case is not ready. *)
Definition chan_recv (c : Chan) : option (bool * Chan) :=
  match chan_buf c with
  | v :: rest => Some (v, mkChan (chan_cap c) rest)
  | [] => None
  end.

(** ** The bridge *)

(** The maps of the [Bridge] struct and its three dirty flags.  [users] holds
    the [User] objects that the [*User] values of the maps point to. *)
Record Registry : Type := mkRegistry {
  users : gmap ptr User;
  usersByMXID : gmap MatrixUserID ptr;
  usersByJID : gmap WhatsAppID ptr;
  managementRooms : gmap MatrixRoomID ptr;
  portalsByMXID : gmap MatrixRoomID ptr;
  portalsByJID : gmap PortalKey ptr;
  puppets : gmap WhatsAppID ptr;
  puppetsByCustomMXID : gmap MatrixUserID ptr;
  usersChanged : bool;
  portalsChanged : bool;
  puppetsChanged : bool
}.

(** The [Bridge] struct.  Its handles ([AS], [EventProcessor],
    [MatrixHandler], [Log], [StateStore], [Bot], [Formatter]) are opaque to
    [main.go]: the calls made on them appear as events.  A [Bridge] value
    exists from the moment [NewBridge] has loaded the configuration. *)
Record Bridge : Type := mkBridge {
  Config : Config_t;
  registry : Registry;
  stopSaveLoop : Chan
}.

Definition with_registry (b : Bridge) (r : Registry) : Bridge :=
  mkBridge (Config b) r (stopSaveLoop b).

Definition with_users (r : Registry) (us : gmap ptr User) : Registry :=
  mkRegistry us (usersByMXID r) (usersByJID r) (managementRooms r)
    (portalsByMXID r) (portalsByJID r) (puppets r) (puppetsByCustomMXID r)
    (usersChanged r) (portalsChanged r) (puppetsChanged r).

(** ** Observable events *)

(** Calls into the collaborators of [main.go]. *)
Inductive Callee : Type :=
| flag_SetHelpTitles
| flag_Parse
| flag_PrintHelp
| config_Load (path : string)
| Config_NewRegistration
| Registration_Save (path : string)
| Config_Save (path : string)
| Config_MakeAppService
| AS_Init
| AS_BotIntent
| log_Create
| Logging_Configure
| log_OpenFile
| log_Sub (name : string)
| NewAutosavingStateStore (path : string)
| StateStore_Load
| LoadUsers
| LoadPortals
| LoadPuppets
| NewEventProcessor
| NewMatrixHandler
| NewFormatter
| Bot_SetAvatarURL (url : string)
| Bot_SetDisplayName (name : string)
| AS_Stop
| EventProcessor_Stop
| Conn_Disconnect (c : ConnID)
| User_SetSession (u : ptr) (s : Session)
| StateStore_Save
| SaveUsers
| SavePortals
| SavePuppets
| signal_Notify
| User_Connect (u : ptr)
| Puppet_StartCustomMXID (p : ptr).

(** The functions [Bridge.Start] and [Bridge.StartUsers] launch with [go]. *)
Inductive Task : Type :=
| T_AS_Start
| T_EventProcessor_Start
| T_UpdateBotProfile
| T_StartUsers
| T_SaveLoop
| T_User_Connect (u : ptr)
| T_CustomPuppet (puppet : Puppet).

Inductive Stream : Type := Stdout | Stderr.
Inductive Level : Type := Debug | Info | Warn | Error | Fatal.

Inductive Event : Type :=
| Call (c : Callee)
| Print (s : Stream) (line : string)
| LogLine (l : Level) (line : string)
| Go (t : Task)
| SendStop (v : bool)
| RecvSignal.

Global Instance Puppet_eq_dec : EqDecision Puppet.
Proof. solve_decision. Defined.
Global Instance Callee_eq_dec : EqDecision Callee.
Proof. solve_decision. Defined.
Global Instance Task_eq_dec : EqDecision Task.
Proof. solve_decision. Defined.
Global Instance Stream_eq_dec : EqDecision Stream.
Proof. solve_decision. Defined.
Global Instance Level_eq_dec : EqDecision Level.
Proof. solve_decision. Defined.
Global Instance Event_eq_dec : EqDecision Event.
Proof. solve_decision. Defined.

(** ** The monad of runs

    A computation yields the events it produced and the way it ended. *)
Inductive Outcome (A : Type) : Type :=
| Returns (a : A)
| Exits (code : Z)      (* os.Exit(code) *)
| Blocks                (* the goroutine waits forever *)
| Panics.               (* nil dereference *)
Arguments Returns {A} a.
Arguments Exits {A} code.
Arguments Blocks {A}.
Arguments Panics {A}.

Definition M (A : Type) : Type := (list Event * Outcome A)%type.

Global Instance M_ret : MRet M := λ A a, ([], Returns a).

Global Instance M_bind : MBind M := λ A B f m,
  match m.2 with
  | Returns a => let r := f a in (m.1 ++ r.1, r.2)
  | Exits c => (m.1, Exits c)
  | Blocks => (m.1, Blocks)
  | Panics => (m.1, Panics)
  end.

Definition emit (e : Event) : M unit := ([e], Returns tt).
Definition call (c : Callee) : M unit := emit (Call c).
Definition os_Exit {A : Type} (code : Z) : M A := ([], Exits code).
Definition block {A : Type} : M A := ([], Blocks).
Definition panic {A : Type} : M A := ([], Panics).

Definition trace {A : Type} (m : M A) : list Event := m.1.
Definition outcome {A : Type} (m : M A) : Outcome A := m.2.

(** [fmt.Fprintln(os.Stderr, msg, err)] and [fmt.Println(msg)]: operands are
    separated by one space. *)
Definition Fprintln_Stderr (msg : string) (err : string) : M unit :=
  emit (Print Stderr (msg +:+ " " +:+ err)).
Definition Println (msg : string) : M unit := emit (Print Stdout msg).

(** The logger methods ([Debugln], [Infoln], [Warnln], [Fatalln] only write a
    line; [Fatalln] of this logger does not end the process). *)
Definition Logln (l : Level) (msg : string) : M unit := emit (LogLine l msg).
Definition Logln2 (l : Level) (msg : string) (arg : string) : M unit :=
  emit (LogLine l (msg +:+ " " +:+ arg)).

(** ** The world

    What the collaborators answer.  Results that Go returns as
    [(value, error)] are sums: [inl] the value, [inr] the text of the error. *)
Record World : Type := mkWorld {
  (* command line: the error of [flag.Parse] and the flag values it leaves *)
  w_flag_Parse : error;
  w_flags : Flags;
  (* configuration and registration *)
  w_config_Load : string → Config_t + string;
  w_NewRegistration : error;
  w_Registration_Save : string → error;
  w_Config_Save : string → error;
  (* initialisation *)
  w_MakeAppService : error;
  w_log_OpenFile : error;
  w_StateStore_Load : error;
  w_LoadUsers : error;
  w_LoadPortals : error;
  w_LoadPuppets : error;
  (* the bot's profile *)
  w_SetAvatarURL : string → error;
  w_SetDisplayName : string → error;
  (* the termination signal: [None] when none ever arrives, otherwise the
     registry as the running subsystems have left it at that moment *)
  w_signal : option Registry;
  (* the order in which [range] visits a map *)
  w_range : gmap WhatsAppID ptr → list (WhatsAppID * ptr);
  (* shutdown *)
  w_Disconnect : ConnID → Session + string;
  w_StateStore_Save : error;
  w_SaveUsers : error;
  w_SavePortals : error;
  w_SavePuppets : error
}.

(** Go leaves the order of [range] over a map unspecified: every entry is
    visited once. *)
Definition GoRange (w : World) : Prop :=
  ∀ m : gmap WhatsAppID ptr, w_range w m ≡ₚ map_to_list m.

(** ** [main.go] *)

(** Lines 43-63. *)
Definition GenerateRegistration (w : World) (bridge : Bridge) : M unit :=
  call Config_NewRegistration;;
  match w_NewRegistration w with
  | Some err =>
      Fprintln_Stderr "Failed to generate registration:" err;; os_Exit 20
  | None => mret tt
  end;;
  call (Registration_Save (registrationPath (w_flags w)));;
  match w_Registration_Save w (registrationPath (w_flags w)) with
  | Some err => Fprintln_Stderr "Failed to save registration:" err;; os_Exit 21
  | None => mret tt
  end;;
  call (Config_Save (configPath (w_flags w)));;
  match w_Config_Save w (configPath (w_flags w)) with
  | Some err => Fprintln_Stderr "Failed to save config:" err;; os_Exit 22
  | None => mret tt
  end;;
  Println "Registration generated. Add the path to the registration to your Synapse config, restart it, then start the bridge.";;
  os_Exit 0.

(** The registry with which [NewBridge] starts: seven empty maps. *)
Definition empty_registry : Registry :=
  mkRegistry ∅ ∅ ∅ ∅ ∅ ∅ ∅ ∅ false false false.

(** Lines 93-112. *)
Definition NewBridge (w : World) : M Bridge :=
  let reg := empty_registry in
  let stop := make_chan 1 in
  call (config_Load (configPath (w_flags w)));;
  match w_config_Load w (configPath (w_flags w)) with
  | inr err => Fprintln_Stderr "Failed to load config:" err;; os_Exit 10
  | inl cfg => mret (mkBridge cfg reg stop)
  end.

(** Lines 114-161.  What the three loads put into the registry is not
    followed here: [Main] next reads the registry at the termination
    signal, which the world gives. *)
Definition Init (w : World) (bridge : Bridge) : M Bridge :=
  call Config_MakeAppService;;
  match w_MakeAppService w with
  | Some err => Fprintln_Stderr "Failed to initialize AppService:" err;; os_Exit 11
  | None => mret tt
  end;;
  call AS_Init;;
  call AS_BotIntent;;
  call log_Create;;
  call Logging_Configure;;
  call log_OpenFile;;
  match w_log_OpenFile w with
  | Some err => Fprintln_Stderr "Failed to open log file:" err;; os_Exit 12
  | None => mret tt
  end;;
  call (log_Sub "Matrix");;
  Logln Debug "Initializing state store";;
  call (NewAutosavingStateStore (StateStore_path (Config bridge)));;
  call StateStore_Load;;
  match w_StateStore_Load w with
  | Some err => Logln2 Fatal "Failed to load state store:" err;; os_Exit 13
  | None => mret tt
  end;;
  Logln Debug "Initializing database";;
  call LoadUsers;;
  match w_LoadUsers w with
  | Some err => Logln2 Fatal "Failed to load users:" err;; os_Exit 14
  | None =>
      call LoadPortals;;
      match w_LoadPortals w with
      | Some err => Logln2 Fatal "Failed to load portals:" err;; os_Exit 15
      | None =>
          call LoadPuppets;;
          match w_LoadPuppets w with
          | Some err => Logln2 Fatal "Failed to load puppets:" err;; os_Exit 16
          | None => mret tt
          end
      end
  end;;
  Logln Debug "Initializing Matrix event processor";;
  call NewEventProcessor;;
  Logln Debug "Initializing Matrix event handler";;
  call NewMatrixHandler;;
  call NewFormatter;;
  mret bridge.

(** Lines 163-171: five [go] statements; [Start] itself does not wait for
    any of them. *)
Definition Start : M unit :=
  Logln Debug "Starting application service HTTP server";;
  emit (Go T_AS_Start);;
  Logln Debug "Starting event processor";;
  emit (Go T_EventProcessor_Start);;
  emit (Go T_UpdateBotProfile);;
  emit (Go T_StartUsers);;
  emit (Go T_SaveLoop).

(** Lines 173-195.  [err] is one variable, assigned by whichever call is
    made; the test of line 189 is on [botConfig.Avatar]. *)
Definition UpdateBotProfile (w : World) (bridge : Bridge) : M unit :=
  Logln Debug "Updating bot profile";;
  let botConfig := Bot_config (Config bridge) in
  err ← (if String.eqb (Avatar botConfig) "remove" then
           call (Bot_SetAvatarURL "");; mret (w_SetAvatarURL w "")
         else if (0 <? String.length (Avatar botConfig))%nat then
           call (Bot_SetAvatarURL (Avatar botConfig));;
           mret (w_SetAvatarURL w (Avatar botConfig))
         else mret None);
  match err with
  | Some e => Logln2 Warn "Failed to update bot avatar:" e
  | None => mret tt
  end;;
  err ← (if String.eqb (Displayname botConfig) "remove" then
           call (Bot_SetDisplayName "");; mret (w_SetDisplayName w "")
         else if (0 <? String.length (Avatar botConfig))%nat then
           call (Bot_SetDisplayName (Displayname botConfig));;
           mret (w_SetDisplayName w (Displayname botConfig))
         else mret err);
  match err with
  | Some e => Logln2 Warn "Failed to update bot displayname:" e
  | None => mret tt
  end.

(** ** The start of the users *)








(** Modelled from the spec: [User.SetSession] is defined outside [main.go];
    the spec says that the token returned by [Disconnect] is captured into
    that User's record.  The object at [p] gets the token as its session. *)
Definition SetSession (p : ptr) (user : User) (sess : Session)
    (us : gmap ptr User) : M (gmap ptr User) :=
  call (User_SetSession p sess);;
  mret (<[p := mkUser (MXID user) (JID user) (Conn user) (Some sess)]> us).

(** Lines 218-229, the body of the loop run over the entries that [range]
    yields.  The map holds pointers: each iteration reads the object as the
    earlier iterations have left it. *)
Fixpoint Stop_disconnect (w : World) (entries : list (WhatsAppID * ptr))
    (us : gmap ptr User) : M (gmap ptr User) :=
  match entries with
  | [] => mret us
  | (_, p) :: rest =>
      match us !! p with
      | None => panic
      | Some user =>
          us' ← match Conn user with
                | None => mret us      (* continue *)
                | Some conn =>
                    Logln2 Debug "Disconnecting" (MXID user);;
                    call (Conn_Disconnect conn);;
                    match w_Disconnect w conn with
                    | inr err =>
                        Logln Error
                          ("Error while disconnecting " +:+ MXID user
                           +:+ ": " +:+ err);;
                        mret us
                    | inl sess => SetSession p user sess us
                    end
                end;
          Stop_disconnect w rest us'
      end
  end.

(** Lines 230-240: the state store, then the chain of the three
    collections. *)
Definition Stop_persist (w : World) : M unit :=
  call StateStore_Save;;
  match w_StateStore_Save w with
  | Some err => Logln2 Warn "Failed to save state store:" err
  | None => mret tt
  end;;
  call SaveUsers;;
  match w_SaveUsers w with
  | Some err => Logln2 Warn "Failed to save users:" err
  | None =>
      call SavePortals;;
      match w_SavePortals w with
      | Some err => Logln2 Warn "Failed to save puppets:" err
      | None =>
          call SavePuppets;;
          match w_SavePuppets w with
          | Some err => Logln2 Warn "Failed to save puppets:" err
          | None => mret tt
          end
      end
  end.

(** Lines 214-241. *)
Definition Stop (w : World) (bridge : Bridge) : M Bridge :=
  stop ← match chan_send (stopSaveLoop bridge) true with
         | Some c => emit (SendStop true);; mret c
         | None => block
         end;
  call AS_Stop;;
  call EventProcessor_Stop;;
  us ← Stop_disconnect w (w_range w (usersByJID (registry bridge)))
         (users (registry bridge));
  Stop_persist w;;
  mret (mkBridge (Config bridge) (with_users (registry bridge) us) stop).

(** Lines 243-262.  Between [Start] and the signal the subsystems run; the
    registry [Stop] works on is the one the world gives at the signal. *)
Definition Main (w : World) (bridge : Bridge) : M unit :=
  if generateRegistration (w_flags w) then
    GenerateRegistration w bridge;;
    mret tt
  else
    bridge ← Init w bridge;
    Logln Info "Bridge initialization complete, starting...";;
    Start;;
    Logln Info "Bridge started!";;
    call signal_Notify;;
    match w_signal w with
    | None => block
    | Some reg =>
        emit RecvSignal;;
        Logln Info "Interrupt received, stopping...";;
        Stop w (with_registry bridge reg);;
        Logln Info "Bridge stopped.";;
        os_Exit 0
    end.

(** Lines 264-279. *)
Definition main (w : World) : M unit :=
  call flag_SetHelpTitles;;
  call flag_Parse;;
  match w_flag_Parse w with
  | Some err =>
      emit (Print Stderr err);;
      call flag_PrintHelp;;
      os_Exit 1
  | None =>
      if wantHelp (w_flags w) then
        call flag_PrintHelp;;
        os_Exit 0
      else mret tt
  end;;
  bridge ← NewBridge w;
  Main w bridge.

(** ** Events that write a file *)

Definition writes_file (e : Event) : bool :=
  match e with
  | Call (Registration_Save _) | Call (Config_Save _) | Call log_OpenFile
  | Call StateStore_Save | Call SaveUsers | Call SavePortals
  | Call SavePuppets => true
  | _ => false
  end.

(** The calls [Init] makes and the [go] statements of [Start]: the events
    by which a subsystem is initialised or started. *)
Definition starts_subsystem (e : Event) : bool :=
  match e with
  | Call Config_MakeAppService | Call AS_Init | Call AS_BotIntent
  | Call log_Create | Call Logging_Configure | Call log_OpenFile
  | Call (log_Sub _) | Call (NewAutosavingStateStore _) | Call StateStore_Load
  | Call LoadUsers | Call LoadPortals | Call LoadPuppets
  | Call NewEventProcessor | Call NewMatrixHandler | Call NewFormatter
  | Go _ => true
  | _ => false
  end.

(** The names passed to [Bot.SetDisplayName], in order. *)
Definition displayname_calls (t : list Event) : list string :=
  omap (λ e, match e with
             | Call (Bot_SetDisplayName name) => Some name
             | _ => None
             end) t.

(** ** The autosave loop and the stop signal *)

(** What the scheduler decides at the [select] of one iteration of the
    loop: whether a tick is pending when the [select] runs, and which case
    the [select] takes when both are ready. *)
Record Select : Type := mkSelect {
  tick_pending : bool;
  prefers_stop : bool
}.

(** The [select] takes the stop case, once it is ready, unless a tick is
    pending and the tick is preferred. *)
Definition takes_stop (sel : Select) : bool :=
  negb (tick_pending sel) || prefers_stop sel.

Record LoopState : Type := mkLoopState {
  loop_running : bool;
  loop_stop : Chan;               (* [bridge.stopSaveLoop] *)
  loop_flags : bool * bool * bool; (* usersChanged, portalsChanged, puppetsChanged *)
  loop_saved : list Callee        (* the saves the loop has made so far *)
}.

(** The saves of one tick: the collections whose dirty flag is set. *)
Definition tick_saves (flags : bool * bool * bool) : list Callee :=
  (if flags.1.1 then [SaveUsers] else [])
  ++ (if flags.1.2 then [SavePortals] else [])
  ++ (if flags.2 then [SavePuppets] else []).

(** Modelled from the spec: [Bridge.SaveLoop] is defined outside [main.go].
    The spec says that on each tick every collection whose dirty flag is set
    is persisted and its flag cleared, and that the loop terminates when it
    receives the stop signal.  An iteration is a [select] between the ticker
    and a receive on [stopSaveLoop]; the receive case is ready exactly when
    a value is buffered, the tick case when a tick is pending, and the loop
    never sends. *)
Definition SaveLoop_step (st : LoopState) (sel : Select) : LoopState :=
  if loop_running st then
    match chan_recv (loop_stop st) with
    | Some (_, c) =>
        if takes_stop sel
        then mkLoopState false c (loop_flags st) (loop_saved st)
        else mkLoopState true (loop_stop st) (false, false, false)
               (loop_saved st ++ tick_saves (loop_flags st))
    | None =>
        if tick_pending sel
        then mkLoopState true (loop_stop st) (false, false, false)
               (loop_saved st ++ tick_saves (loop_flags st))
        else st           (* no case is ready: the select waits *)
    end
  else st.

Definition SaveLoop (st : LoopState) (sels : list Select) : LoopState :=
  foldl SaveLoop_step st sels.

(** The loop as [Start] launches it on a bridge. *)
Definition SaveLoop_start (bridge : Bridge) : LoopState :=
  mkLoopState true (stopSaveLoop bridge)
    (usersChanged (registry bridge), portalsChanged (registry bridge),
     puppetsChanged (registry bridge))
    [].

(** The loop once a send on its stop channel has left the channel as [c]. *)
Definition signalled (st : LoopState) (c : Chan) : LoopState :=
  mkLoopState (loop_running st) c (loop_flags st) (loop_saved st).

(** ** Sample worlds *)

Definition sample_config : Config_t :=
  mkConfig (mkBotConfig "WhatsApp bridge bot" "mxc://maunium.net/avatar")
    "mx-state.json".

Definition sample_flags : Flags :=
  mkFlags "config.yaml" "registration.yaml" false false.

Definition alice : User :=
  mkUser "@alice:example.com" "4915100000001@s.whatsapp.net" (Some 1%positive) None.
Definition bob : User :=
  mkUser "@bob:example.com" "4915100000002@s.whatsapp.net" (Some 2%positive) None.
Definition carol : User :=
  mkUser "@carol:example.com" "4915100000003@s.whatsapp.net" None None.

Definition sample_registry : Registry :=
  mkRegistry
    (<[1%positive := alice]> (<[2%positive := bob]> (<[3%positive := carol]> ∅)))
    (<[MXID alice := 1%positive]> (<[MXID bob := 2%positive]> (<[MXID carol := 3%positive]> ∅)))
    (<[JID alice := 1%positive]> (<[JID bob := 2%positive]> (<[JID carol := 3%positive]> ∅)))
    ∅ ∅ ∅ ∅ ∅ false false false.

(** Everything succeeds; the signal arrives with the sample registry, where
    the connection of alice fails to disconnect and that of bob hands back a
    token. *)
Definition sample_world : World :=
  {| w_flag_Parse := None;
     w_flags := sample_flags;
     w_config_Load := λ _, inl sample_config;
     w_NewRegistration := None;
     w_Registration_Save := λ _, None;
     w_Config_Save := λ _, None;
     w_MakeAppService := None;
     w_log_OpenFile := None;
     w_StateStore_Load := None;
     w_LoadUsers := None;
     w_LoadPortals := None;
     w_LoadPuppets := None;
     w_SetAvatarURL := λ _, None;
     w_SetDisplayName := λ _, None;
     w_signal := Some sample_registry;
     w_range := map_to_list;
     w_Disconnect := λ c, if decide (c = 1%positive) then inr "connection closed"
                          else inl "token-of-bob";
     w_StateStore_Save := None;
     w_SaveUsers := None;
     w_SavePortals := None;
     w_SavePuppets := None |}.

Definition sample_bridge : Bridge :=
  mkBridge sample_config sample_registry (make_chan 1).

(** In a well-formed registry every [*User] held by [usersByJID] points to
    an object. *)
Definition users_allocated (r : Registry) : Prop :=
  map_Forall (λ _ p, is_Some (users r !! p)) (usersByJID r).

(** ** What one run of the disconnect loop does, read off the initial
    objects *)

(** The object of a user after its entry has been visited. *)
Definition disconnected (w : World) (user : User) : User :=
  match Conn user with
  | None => user
  | Some conn =>
      match w_Disconnect w conn with
      | inl sess => mkUser (MXID user) (JID user) (Conn user) (Some sess)
      | inr _ => user
      end
  end.

(** The events of the visit of one entry. *)
Definition visit_events (w : World) (us : gmap ptr User)
    (entry : WhatsAppID * ptr) : list Event :=
  match us !! entry.2 with
  | None => []
  | Some user =>
      match Conn user with
      | None => []
      | Some conn =>
          [LogLine Debug ("Disconnecting" +:+ " " +:+ MXID user);
           Call (Conn_Disconnect conn);
           match w_Disconnect w conn with
           | inl sess => Call (User_SetSession entry.2 sess)
           | inr err =>
               LogLine Error ("Error while disconnecting " +:+ MXID user
                              +:+ ": " +:+ err)
           end]
      end
  end.

(** The objects after the visit of a list of entries. *)
Definition visited (w : World) (entries : list (WhatsAppID * ptr))
    (us : gmap ptr User) : gmap ptr User :=
  foldl (λ acc entry, alter (disconnected w) entry.2 acc) us entries.

(** The sample world with other flags, another answer of [config.Load] and
    another result of [SaveUsers]. *)
Definition sample_world_with (fl : Flags) (load : string → Config_t + string)
    (saveUsers : error) : World :=
  {| w_flag_Parse := None;
     w_flags := fl;
     w_config_Load := load;
     w_NewRegistration := None;
     w_Registration_Save := λ _, None;
     w_Config_Save := λ _, None;
     w_MakeAppService := None;
     w_log_OpenFile := None;
     w_StateStore_Load := None;
     w_LoadUsers := None;
     w_LoadPortals := None;
     w_LoadPuppets := None;
     w_SetAvatarURL := λ _, None;
     w_SetDisplayName := λ _, None;
     w_signal := Some sample_registry;
     w_range := map_to_list;
     w_Disconnect := w_Disconnect sample_world;
     w_StateStore_Save := None;
     w_SaveUsers := saveUsers;
     w_SavePortals := None;
     w_SavePuppets := None |}.

(** [-g]. *)
Definition world_generate : World :=
  sample_world_with (mkFlags "config.yaml" "registration.yaml" true false)
    (λ _, inl sample_config) None.

(** [-g -h]. *)
Definition world_generate_help : World :=
  sample_world_with (mkFlags "config.yaml" "registration.yaml" true true)
    (λ _, inl sample_config) None.

(** [-c missing.yaml], a file that cannot be read. *)
Definition world_missing_config : World :=
  sample_world_with (mkFlags "missing.yaml" "registration.yaml" false false)
    (λ _, inr "open missing.yaml: no such file or directory") None.

(** [-h -c missing.yaml]. *)
Definition world_missing_config_help : World :=
  sample_world_with (mkFlags "missing.yaml" "registration.yaml" false true)
    (λ _, inr "open missing.yaml: no such file or directory") None.

(** The users cannot be saved at shutdown. *)
Definition world_users_unsaved : World :=
  sample_world_with sample_flags (λ _, inl sample_config)
    (Some "write users.json: no space left on device").

(** The log file cannot be opened. *)
Definition world_no_log : World :=
  {| w_flag_Parse := None;
     w_flags := sample_flags;
     w_config_Load := λ _, inl sample_config;
     w_NewRegistration := None;
     w_Registration_Save := λ _, None;
     w_Config_Save := λ _, None;
     w_MakeAppService := None;
     w_log_OpenFile := Some "open logs/bridge.log: permission denied";
     w_StateStore_Load := None;
     w_LoadUsers := None;
     w_LoadPortals := None;
     w_LoadPuppets := None;
     w_SetAvatarURL := λ _, None;
     w_SetDisplayName := λ _, None;
     w_signal := None;
     w_range := map_to_list;
     w_Disconnect := λ _, inr "not connected";
     w_StateStore_Save := None;
     w_SaveUsers := None;
     w_SavePortals := None;
     w_SavePuppets := None |}.

(** dave is logging in: he has a connection and no JID yet, so that
    [usersByMXID] holds him and [usersByJID] does not. *)
Definition dave : User :=
  mkUser "@dave:example.com" "" (Some 4%positive) None.

Definition login_registry : Registry :=
  mkRegistry
    (<[4%positive := dave]> (users sample_registry))
    (<[MXID dave := 4%positive]> (usersByMXID sample_registry))
    (usersByJID sample_registry)
    ∅ ∅ ∅ ∅ ∅ false false false.

Definition login_bridge : Bridge :=
  mkBridge sample_config login_registry (make_chan 1).

(** A bridge whose configuration has the given bot profile. *)
Definition bot_bridge (displayname avatar : string) : Bridge :=
  mkBridge (mkConfig (mkBotConfig displayname avatar) "mx-state.json")
    empty_registry (make_chan 1).

(** ** Reading traces *)

(** The URLs passed to [Bot.SetAvatarURL], in order. *)
Definition avatar_calls (t : list Event) : list string :=
  omap (λ e, match e with
             | Call (Bot_SetAvatarURL url) => Some url
             | _ => None
             end) t.

(** The functions launched with [go], in order. *)
Definition spawned (t : list Event) : list Task :=
  omap (λ e, match e with Go task => Some task | _ => None end) t.



(** The saves of the state store and of the collections, in order. *)
Definition save_calls (t : list Event) : list Callee :=
  omap (λ e, match e with
             | Call StateStore_Save => Some StateStore_Save
             | Call SaveUsers => Some SaveUsers
             | Call SavePortals => Some SavePortals
             | Call SavePuppets => Some SavePuppets
             | _ => None
             end) t.

(** The connections asked to disconnect, in order. *)
Definition disconnect_calls (t : list Event) : list ConnID :=
  omap (λ e, match e with
             | Call (Conn_Disconnect conn) => Some conn
             | _ => None
             end) t.

(** The connection of the user behind an entry of [usersByJID]. *)
Definition entry_Conn (us : gmap ptr User) (entry : WhatsAppID * ptr)
    : option ConnID :=
  us !! entry.2 ≫= Conn.

(** The events [Stop] can produce: the send on the stop channel, the stop of
    the app-service and of the event processor, disconnects, stored
    sessions, saves, and log lines. *)
Definition shutdown_event (e : Event) : bool :=
  match e with
  | SendStop _ | Call AS_Stop | Call EventProcessor_Stop
  | Call (Conn_Disconnect _) | Call (User_SetSession _ _)
  | Call StateStore_Save | Call SaveUsers | Call SavePortals
  | Call SavePuppets | LogLine _ _ => true
  | _ => false
  end.

(** ** Conditions on the world *)

(** [err == nil]. *)
Definition is_nil (e : error) : bool :=
  match e with None => true | Some _ => false end.

(** Every fallible step of [Init] succeeds. *)
Definition Init_succeeds (w : World) : bool :=
  is_nil (w_MakeAppService w) && is_nil (w_log_OpenFile w)
  && is_nil (w_StateStore_Load w) && is_nil (w_LoadUsers w)
  && is_nil (w_LoadPortals w) && is_nil (w_LoadPuppets w).

(** The flags parse, help is not asked for and the configuration loads:
    [main] gets to [Bridge.Main]. *)
Definition reaches_Main (w : World) : bool :=
  is_nil (w_flag_Parse w) && negb (wantHelp (w_flags w))
  && match w_config_Load w (configPath (w_flags w)) with
     | inl _ => true
     | inr _ => false
     end.

(** [main] gets through [Init] and to [Start]. *)
Definition bridge_starts (w : World) : bool :=
  reaches_Main w && negb (generateRegistration (w_flags w)) && Init_succeeds w.

(** ** More sample worlds *)



(** A world with another order of [range]. *)
Definition set_range (w : World)
    (range : gmap WhatsAppID ptr → list (WhatsAppID * ptr)) : World :=
  {| w_flag_Parse := w_flag_Parse w;
     w_flags := w_flags w;
     w_config_Load := w_config_Load w;
     w_NewRegistration := w_NewRegistration w;
     w_Registration_Save := w_Registration_Save w;
     w_Config_Save := w_Config_Save w;
     w_MakeAppService := w_MakeAppService w;
     w_log_OpenFile := w_log_OpenFile w;
     w_StateStore_Load := w_StateStore_Load w;
     w_LoadUsers := w_LoadUsers w;
     w_LoadPortals := w_LoadPortals w;
     w_LoadPuppets := w_LoadPuppets w;
     w_SetAvatarURL := w_SetAvatarURL w;
     w_SetDisplayName := w_SetDisplayName w;
     w_signal := w_signal w;
     w_range := range;
     w_Disconnect := w_Disconnect w;
     w_StateStore_Save := w_StateStore_Save w;
     w_SaveUsers := w_SaveUsers w;
     w_SavePortals := w_SavePortals w;
     w_SavePuppets := w_SavePuppets w |}.

(** A world with another termination signal. *)
Definition set_signal (w : World) (sig : option Registry) : World :=
  {| w_flag_Parse := w_flag_Parse w;
     w_flags := w_flags w;
     w_config_Load := w_config_Load w;
     w_NewRegistration := w_NewRegistration w;
     w_Registration_Save := w_Registration_Save w;
     w_Config_Save := w_Config_Save w;
     w_MakeAppService := w_MakeAppService w;
     w_log_OpenFile := w_log_OpenFile w;
     w_StateStore_Load := w_StateStore_Load w;
     w_LoadUsers := w_LoadUsers w;
     w_LoadPortals := w_LoadPortals w;
     w_LoadPuppets := w_LoadPuppets w;
     w_SetAvatarURL := w_SetAvatarURL w;
     w_SetDisplayName := w_SetDisplayName w;
     w_signal := sig;
     w_range := w_range w;
     w_Disconnect := w_Disconnect w;
     w_StateStore_Save := w_StateStore_Save w;
     w_SaveUsers := w_SaveUsers w;
     w_SavePortals := w_SavePortals w;
     w_SavePuppets := w_SavePuppets w |}.

(** A world with other answers to the updates of the bot profile. *)
Definition set_profile_results (w : World)
    (avatar displayname : string → error) : World :=
  {| w_flag_Parse := w_flag_Parse w;
     w_flags := w_flags w;
     w_config_Load := w_config_Load w;
     w_NewRegistration := w_NewRegistration w;
     w_Registration_Save := w_Registration_Save w;
     w_Config_Save := w_Config_Save w;
     w_MakeAppService := w_MakeAppService w;
     w_log_OpenFile := w_log_OpenFile w;
     w_StateStore_Load := w_StateStore_Load w;
     w_LoadUsers := w_LoadUsers w;
     w_LoadPortals := w_LoadPortals w;
     w_LoadPuppets := w_LoadPuppets w;
     w_SetAvatarURL := avatar;
     w_SetDisplayName := displayname;
     w_signal := w_signal w;
     w_range := w_range w;
     w_Disconnect := w_Disconnect w;
     w_StateStore_Save := w_StateStore_Save w;
     w_SaveUsers := w_SaveUsers w;
     w_SavePortals := w_SavePortals w;
     w_SavePuppets := w_SavePuppets w |}.

(** No signal ever arrives. *)
Definition world_no_signal : World := set_signal sample_world None.

(** The homeserver rejects the avatar. *)
Definition world_avatar_rejected : World :=
  set_profile_results sample_world (λ _, Some "M_FORBIDDEN") (λ _, None).

(** [range] visits the map in the opposite order. *)
Definition world_reversed : World :=
  set_range sample_world (λ m, reverse (map_to_list m)).

(** A registry in which nobody is connected. *)
Definition idle_registry : Registry :=
  mkRegistry
    (<[3%positive := carol]> ∅)
    (<[MXID carol := 3%positive]> ∅)
    (<[JID carol := 3%positive]> ∅)
    ∅ ∅ ∅ ∅ ∅ false false false.

Definition idle_bridge : Bridge :=
  mkBridge sample_config idle_registry (make_chan 1).

(** ** Tactics *)

(** Run the monad without unfolding the texts of the messages. *)
Tactic Notation "run" :=
  cbn [mbind M_bind mret M_ret call emit os_Exit block panic fst snd app
       trace outcome Fprintln_Stderr Println Logln Logln2 Start].
Tactic Notation "run" "in" hyp(H) :=
  cbn [mbind M_bind mret M_ret call emit os_Exit block panic fst snd app
       trace outcome Fprintln_Stderr Println Logln Logln2 Start] in H.

(** An event that differs from every element of a list is not in it. *)
Ltac absurd_elem H :=
  repeat (apply elem_of_cons in H as [H|H]; [discriminate H|]);
  apply elem_of_nil in H; contradiction.

Ltac in_list :=
  repeat first [apply list_elem_of_here | apply list_elem_of_further].

(** The paths of [main], one goal for each: the early exits are closed by
    [tac], the last goal is the run that got through [Init] and [Start]. *)
Ltac main_paths w tac :=
  unfold main, NewBridge, Main, Init, GenerateRegistration;
  destruct (w_flag_Parse w) eqn:?; [run; tac|];
  destruct (wantHelp (w_flags w)) eqn:?; [run; tac|];
  destruct (w_config_Load w (configPath (w_flags w))) eqn:?; [|run; tac];
  destruct (generateRegistration (w_flags w)) eqn:?;
    [destruct (w_NewRegistration w) eqn:?; [run; tac|];
     destruct (w_Registration_Save w (registrationPath (w_flags w))) eqn:?;
       [run; tac|];
     destruct (w_Config_Save w (configPath (w_flags w))) eqn:?; run; tac|];
  destruct (w_MakeAppService w) eqn:?; [run; tac|];
  destruct (w_log_OpenFile w) eqn:?; [run; tac|];
  destruct (w_StateStore_Load w) eqn:?; [run; tac|];
  destruct (w_LoadUsers w) eqn:?; [run; tac|];
  destruct (w_LoadPortals w) eqn:?; [run; tac|];
  destruct (w_LoadPuppets w) eqn:?; [run; tac|];
  run.

(** Membership in a list of events that computes. *)
Ltac decide_elem := refine (bool_decide_unpack _ _); vm_compute; exact I.


(** * Properties *)

(** ** The disconnect loop *)

Lemma disconnected_idemp w user :
  disconnected w (disconnected w user) = disconnected w user.
Proof.
  unfold disconnected. destruct (Conn user) as [c|] eqn:Hc; simpl.
  - destruct (w_Disconnect w c) eqn:Hd; simpl; rewrite ?Hc, ?Hd; done.
  - by rewrite Hc.
Qed.

Lemma disconnected_Conn w user : Conn (disconnected w user) = Conn user.
Proof.
  unfold disconnected. destruct (Conn user) as [c|] eqn:Hc; [|done].
  by destruct (w_Disconnect w c).
Qed.

Lemma disconnected_MXID w user : MXID (disconnected w user) = MXID user.
Proof.
  unfold disconnected. destruct (Conn user) as [c|] eqn:Hc; [|done].
  by destruct (w_Disconnect w c).
Qed.

Lemma visit_events_alter w us p entry :
  visit_events w (alter (disconnected w) p us) entry = visit_events w us entry.
Proof.
  unfold visit_events. destruct (decide (p = entry.2)) as [->|Hne].
  - rewrite lookup_alter_eq. destruct (us !! entry.2) as [user|]; simpl; [|done].
    by rewrite disconnected_Conn, disconnected_MXID.
  - by rewrite lookup_alter_ne.
Qed.

Lemma alter_known {A} (f : A → A) (p : ptr) (us : gmap ptr A) (x : A) :
  us !! p = Some x → alter f p us = <[p := f x]> us.
Proof.
  intros Hp. apply map_eq; intros q. destruct (decide (p = q)) as [<-|].
  - by rewrite lookup_alter_eq, lookup_insert_eq, Hp.
  - by rewrite lookup_alter_ne, lookup_insert_ne.
Qed.

(** One iteration: the object at [p] becomes its [disconnected] version and
    the events are those of [visit_events]. *)
Lemma Stop_disconnect_cons w k p rest us user :
  us !! p = Some user →
  Stop_disconnect w ((k, p) :: rest) us =
  (visit_events w us (k, p)
     ++ trace (Stop_disconnect w rest (alter (disconnected w) p us)),
   outcome (Stop_disconnect w rest (alter (disconnected w) p us))).
Proof.
  intros Hp. rewrite (alter_known _ _ _ _ Hp).
  simpl. unfold visit_events, disconnected. simpl. rewrite Hp.
  destruct (Conn user) as [conn|] eqn:Hc.
  - destruct (w_Disconnect w conn) as [sess|err] eqn:Hd.
    + unfold SetSession. rewrite Hc.
      unfold mbind, M_bind, call, emit, mret, M_ret, trace, outcome. simpl.
      by destruct (Stop_disconnect w rest _) as [t []].
    + rewrite (insert_id _ _ _ Hp).
      unfold mbind, M_bind, call, emit, mret, M_ret, trace, outcome. simpl.
      by destruct (Stop_disconnect w rest us) as [t []].
  - rewrite (insert_id _ _ _ Hp).
    unfold mbind, M_bind, call, emit, mret, M_ret, trace, outcome. simpl.
    by destruct (Stop_disconnect w rest us) as [t []].
Qed.

(** The whole loop, when every visited pointer points to an object: it
    returns, its events are the visits' in order, and the objects are the
    [visited] ones. *)
Lemma Stop_disconnect_run w entries : ∀ us,
  Forall (λ entry, is_Some (us !! entry.2)) entries →
  Stop_disconnect w entries us =
  (flat_map (visit_events w us) entries, Returns (visited w entries us)).
Proof.
  induction entries as [|[k p] rest IH]; intros us Hall.
  - reflexivity.
  - apply Forall_cons in Hall as [[user Hp] Hrest]. simpl in Hp.
    rewrite (Stop_disconnect_cons _ _ _ _ _ _ Hp).
    rewrite IH.
    + simpl. f_equal. f_equal.
      apply flat_map_ext. intros entry. apply visit_events_alter.
    + eapply Forall_impl; [exact Hrest|]. intros entry [u Hu]. simpl.
      destruct (decide (p = entry.2)) as [->|Hne].
      * rewrite lookup_alter_eq, Hu. by eexists.
      * rewrite lookup_alter_ne by done. by eexists.
Qed.

(** The objects after the loop: those whose pointer was visited are
    [disconnected], the others are as before. *)
Lemma visited_lookup w entries : ∀ us p,
  visited w entries us !! p =
  if decide (p ∈ entries.*2) then disconnected w <$> us !! p else us !! p.
Proof.
  unfold visited.
  induction entries as [|[k p0] rest IH]; intros us p.
  - simpl. destruct (decide (p ∈ [])) as [Hin|]; [by apply elem_of_nil in Hin|done].
  - rewrite fmap_cons. cbn [foldl snd]. rewrite IH.
    destruct (decide (p = p0)) as [->|Hne].
    + rewrite lookup_alter_eq.
      destruct (decide (p0 ∈ p0 :: rest.*2)) as [_|Hn];
        [|exfalso; apply Hn, elem_of_cons; auto].
      destruct (decide (p0 ∈ rest.*2)); [|done].
      destruct (us !! p0); simpl; [|done]. by rewrite disconnected_idemp.
    + rewrite lookup_alter_ne by done.
      destruct (decide (p ∈ rest.*2)) as [Hin|Hnin];
        destruct (decide (p ∈ p0 :: rest.*2)) as [Hin'|Hnin']; try done.
      * exfalso; apply Hnin', elem_of_cons; auto.
      * apply elem_of_cons in Hin' as [?|?]; contradiction.
Qed.

(** ** The persistence steps *)

Lemma Stop_persist_returns w : outcome (Stop_persist w) = Returns tt.
Proof.
  unfold Stop_persist.
  destruct (w_StateStore_Save w), (w_SaveUsers w), (w_SavePortals w),
    (w_SavePuppets w); reflexivity.
Qed.


(** With no save failing, the three collections are saved in the order
    users, portals, puppets. *)
Lemma Stop_persist_all w :
  w_SaveUsers w = None → w_SavePortals w = None →
  ∃ pre, trace (Stop_persist w) =
         pre ++ [Call SaveUsers; Call SavePortals; Call SavePuppets]
         ++ match w_SavePuppets w with
            | Some err => [LogLine Warn ("Failed to save puppets:" +:+ " " +:+ err)]
            | None => []
            end.
Proof.
  intros Hu Hp. unfold Stop_persist. rewrite Hu, Hp.
  destruct (w_StateStore_Save w) as [e|], (w_SavePuppets w).
  - by exists [Call StateStore_Save; LogLine Warn ("Failed to save state store:" +:+ " " +:+ e)].
  - by exists [Call StateStore_Save; LogLine Warn ("Failed to save state store:" +:+ " " +:+ e)].
  - by exists [Call StateStore_Save].
  - by exists [Call StateStore_Save].
Qed.

(** ** [Stop] as a whole *)

(** [range] yields entries of the map only. *)
Lemma GoRange_allocated w r :
  GoRange w → users_allocated r →
  Forall (λ entry, is_Some (users r !! entry.2)) (w_range w (usersByJID r)).
Proof.
  intros Hrange Halloc. apply Forall_forall. intros [k p] Hin.
  rewrite (Hrange (usersByJID r)) in Hin.
  apply elem_of_map_to_list in Hin.
  exact (map_Forall_lookup_1 _ _ _ _ Halloc Hin).
Qed.

Lemma Stop_run w bridge stop :
  chan_send (stopSaveLoop bridge) true = Some stop →
  GoRange w → users_allocated (registry bridge) →
  Stop w bridge =
  ([SendStop true; Call AS_Stop; Call EventProcessor_Stop]
   ++ flat_map (visit_events w (users (registry bridge)))
        (w_range w (usersByJID (registry bridge)))
   ++ trace (Stop_persist w),
   Returns (mkBridge (Config bridge)
              (with_users (registry bridge)
                 (visited w (w_range w (usersByJID (registry bridge)))
                    (users (registry bridge))))
              stop)).
Proof.
  intros Hsend Hrange Halloc. unfold Stop. rewrite Hsend.
  rewrite (Stop_disconnect_run w _ _ (GoRange_allocated _ _ Hrange Halloc)).
  pose proof (Stop_persist_returns w) as Hret.
  destruct (Stop_persist w) as [t o]. simpl in Hret. subst o.
  unfold mbind, M_bind, call, emit, mret, M_ret, trace, outcome. simpl.
  by rewrite app_nil_r.
Qed.

(** No persistence step is a disconnect request. *)
Lemma Stop_persist_no_disconnect w conn :
  Call (Conn_Disconnect conn) ∉ trace (Stop_persist w).
Proof.
  unfold Stop_persist.
  destruct (w_StateStore_Save w), (w_SaveUsers w), (w_SavePortals w),
    (w_SavePuppets w); simpl;
    repeat (let H := fresh in
            intros H; apply elem_of_cons in H as [H|H]; [discriminate|];
            revert H);
    apply not_elem_of_nil.
Qed.

(** The disconnect requests of the loop are those of the connected users
    among the visited entries. *)
Lemma visit_events_disconnect w us entries conn :
  Call (Conn_Disconnect conn) ∈ flat_map (visit_events w us) entries ↔
  ∃ entry user, entry ∈ entries ∧ us !! entry.2 = Some user
                ∧ Conn user = Some conn.
Proof.
  rewrite list_elem_of_In, in_flat_map. split.
  - intros (entry & Hin & Hev). apply list_elem_of_In in Hin, Hev.
    unfold visit_events in Hev.
    destruct (us !! entry.2) as [user|] eqn:Hu; [|by apply elem_of_nil in Hev].
    destruct (Conn user) as [c|] eqn:Hc; [|by apply elem_of_nil in Hev].
    exists entry, user. repeat split; try done.
    apply elem_of_cons in Hev as [Hev|Hev]; [discriminate|].
    apply elem_of_cons in Hev as [Hev|Hev]; [congruence|].
    apply elem_of_cons in Hev as [Hev|Hev];
      [by destruct (w_Disconnect w c)|by apply elem_of_nil in Hev].
  - intros (entry & user & Hin & Hu & Hc). exists entry.
    split; [by apply list_elem_of_In|].
    apply list_elem_of_In. unfold visit_events. rewrite Hu, Hc.
    apply list_elem_of_further, list_elem_of_here.
Qed.

Lemma visit_events_SetSession w us entries k p user conn sess :
  (k, p) ∈ entries → us !! p = Some user → Conn user = Some conn →
  w_Disconnect w conn = inl sess →
  Call (User_SetSession p sess) ∈ flat_map (visit_events w us) entries.
Proof.
  intros Hin Hu Hc Hd. apply list_elem_of_In, in_flat_map.
  exists (k, p). split; [by apply list_elem_of_In|].
  apply list_elem_of_In. unfold visit_events. simpl. rewrite Hu, Hc, Hd.
  do 2 apply list_elem_of_further. apply list_elem_of_here.
Qed.

(** ** Claims about [Stop] *)


(** C4, amended. [Stop] requests a disconnect exactly for the connections
    of the users of [usersByJID] that have one; the object of such a user
    gets the returned token as its session when the call returns one, and
    is left as it was when the call fails; the object of a user without
    connection, and every object that [usersByJID] does not point to, is
    left as it was. *)
Theorem Stop_stores_session_tokens w bridge stop :
  chan_send (stopSaveLoop bridge) true = Some stop →
  GoRange w → users_allocated (registry bridge) →
  ∃ bridge',
    outcome (Stop w bridge) = Returns bridge'
    ∧ usersByJID (registry bridge') = usersByJID (registry bridge)
    ∧ (∀ conn,
         Call (Conn_Disconnect conn) ∈ trace (Stop w bridge) ↔
         ∃ k p user, usersByJID (registry bridge) !! k = Some p
                     ∧ users (registry bridge) !! p = Some user
                     ∧ Conn user = Some conn)
    ∧ (∀ k p user,
         usersByJID (registry bridge) !! k = Some p →
         users (registry bridge) !! p = Some user →
         match Conn user with
         | None => users (registry bridge') !! p = Some user
         | Some conn =>
             match w_Disconnect w conn with
             | inl sess =>
                 Call (User_SetSession p sess) ∈ trace (Stop w bridge)
                 ∧ users (registry bridge') !! p =
                   Some (mkUser (MXID user) (JID user) (Conn user) (Some sess))
             | inr _ => users (registry bridge') !! p = Some user
             end
         end)
    ∧ (∀ p, (∀ k, usersByJID (registry bridge) !! k ≠ Some p) →
            users (registry bridge') !! p = users (registry bridge) !! p).
Proof.
  intros Hsend Hrange Halloc.
  rewrite (Stop_run _ _ _ Hsend Hrange Halloc).
  eexists. split; [reflexivity|]. split; [reflexivity|]. simpl. split; [|split].
  - intros conn. unfold trace. simpl.
    rewrite !elem_of_cons, elem_of_app, visit_events_disconnect. split.
    + intros [?|[?|[?|[(entry & user & Hin & Hu & Hc)|Hper]]]]; try discriminate.
      * destruct entry as [k p]. exists k, p, user. repeat split; try done.
        rewrite (Hrange _) in Hin. by apply elem_of_map_to_list in Hin.
      * by apply Stop_persist_no_disconnect in Hper.
    + intros (k & p & user & Hk & Hu & Hc). do 3 right. left.
      exists (k, p), user. repeat split; try done.
      rewrite (Hrange _). by apply elem_of_map_to_list.
  - intros k p user Hk Hu.
    assert (Hin : (k, p) ∈ w_range w (usersByJID (registry bridge))).
    { rewrite (Hrange _). by apply elem_of_map_to_list. }
    rewrite visited_lookup, Hu.
    rewrite decide_True by (apply list_elem_of_fmap; by exists (k, p)).
    simpl. unfold disconnected.
    destruct (Conn user) as [conn|] eqn:Hc; [|done].
    destruct (w_Disconnect w conn) as [sess|err] eqn:Hd; [|done].
    split; [|done]. unfold trace. simpl.
    do 3 apply list_elem_of_further. apply elem_of_app. left.
    by eapply visit_events_SetSession.
  - intros p Hnot. rewrite visited_lookup.
    rewrite decide_False; [done|].
    intros ([k p'] & -> & Hin)%list_elem_of_fmap.
    rewrite (Hrange _) in Hin. apply elem_of_map_to_list in Hin.
    by destruct (Hnot k).
Qed.

(** The sample world and bridge satisfy the assumptions made on [Stop]. *)
Lemma sample_GoRange : GoRange sample_world.
Proof. intros m. reflexivity. Defined.

Lemma sample_users_allocated : users_allocated sample_registry.
Proof.
  unfold users_allocated. apply map_Forall_lookup. intros k p Hk.
  unfold sample_registry in *. simpl in *.
  repeat (apply lookup_insert_Some in Hk as [[_ <-]|[_ Hk]]; [by eexists|]).
  by rewrite lookup_empty in Hk.
Defined.


Lemma Stop_stores_session_tokens_witness :
  chan_send (stopSaveLoop sample_bridge) true = Some (mkChan 1 [true])
  ∧ GoRange sample_world
  ∧ users_allocated (registry sample_bridge)
  ∧ ∃ bridge',
      outcome (Stop sample_world sample_bridge) = Returns bridge'
      ∧ usersByJID (registry bridge') = usersByJID (registry sample_bridge)
      ∧ (∀ conn,
           Call (Conn_Disconnect conn) ∈ trace (Stop sample_world sample_bridge) ↔
           ∃ k p user, usersByJID (registry sample_bridge) !! k = Some p
                       ∧ users (registry sample_bridge) !! p = Some user
                       ∧ Conn user = Some conn)
      ∧ (∀ k p user,
           usersByJID (registry sample_bridge) !! k = Some p →
           users (registry sample_bridge) !! p = Some user →
           match Conn user with
           | None => users (registry bridge') !! p = Some user
           | Some conn =>
               match w_Disconnect sample_world conn with
               | inl sess =>
                   Call (User_SetSession p sess)
                     ∈ trace (Stop sample_world sample_bridge)
                   ∧ users (registry bridge') !! p =
                     Some (mkUser (MXID user) (JID user) (Conn user) (Some sess))
               | inr _ => users (registry bridge') !! p = Some user
               end
           end)
      ∧ (∀ p, (∀ k, usersByJID (registry sample_bridge) !! k ≠ Some p) →
              users (registry bridge') !! p
              = users (registry sample_bridge) !! p).
Proof.
  split; [reflexivity|]. split; [exact sample_GoRange|].
  split; [exact sample_users_allocated|].
  apply (Stop_stores_session_tokens sample_world sample_bridge
           (mkChan 1 [true])).
  - reflexivity.
  - exact sample_GoRange.
  - exact sample_users_allocated.
Defined.

Lemma login_users_allocated : users_allocated login_registry.
Proof.
  unfold users_allocated. apply map_Forall_lookup. intros k p Hk.
  unfold login_registry, sample_registry in *. simpl in *.
  repeat (apply lookup_insert_Some in Hk as [[_ <-]|[_ Hk]];
          [by (vm_compute; eexists)|]).
  by rewrite lookup_empty in Hk.
Defined.


(** C4, as stated, fails for a user with a connection that [usersByJID]
    does not hold: dave's connection would return a token, yet [Stop]
    requests no disconnect for it and dave's object keeps no session. *)
Lemma Stop_skips_user_outside_usersByJID :
  chan_send (stopSaveLoop login_bridge) true = Some (mkChan 1 [true])
  ∧ GoRange sample_world
  ∧ users_allocated (registry login_bridge)
  ∧ usersByMXID (registry login_bridge) !! MXID dave = Some 4%positive
  ∧ users (registry login_bridge) !! 4%positive = Some dave
  ∧ Conn dave = Some 4%positive
  ∧ w_Disconnect sample_world 4%positive = inl "token-of-bob"
  ∧ (Call (Conn_Disconnect 4%positive)
       ∉ trace (Stop sample_world login_bridge))
  ∧ ∃ bridge', outcome (Stop sample_world login_bridge) = Returns bridge'
               ∧ users (registry bridge') !! 4%positive = Some dave
               ∧ UserSession dave = None.
Proof.
  split; [reflexivity|]. split; [exact sample_GoRange|].
  split; [exact login_users_allocated|].
  split; [by vm_compute|]. split; [by vm_compute|].
  split; [reflexivity|]. split; [reflexivity|].
  split; [refine (bool_decide_unpack _ _); vm_compute; exact I|].
  eexists. split; [vm_compute; reflexivity|]. by vm_compute.
Qed.

(** On the sample bridge: bob's object holds the token his connection
    returned, alice's (whose disconnect failed) and carol's (who has no
    connection) are as they were. *)
Example Stop_sample_objects :
  ∃ bridge', outcome (Stop sample_world sample_bridge) = Returns bridge'
    ∧ users (registry bridge') !! 1%positive = Some alice
    ∧ users (registry bridge') !! 2%positive =
        Some (mkUser (MXID bob) (JID bob) (Conn bob) (Some "token-of-bob"))
    ∧ users (registry bridge') !! 3%positive = Some carol.
Proof. eexists. split; [vm_compute; reflexivity|]. vm_compute. done. Qed.

(** ** The chain of saves *)

(** When the users cannot be saved, [Stop] attempts neither the portals nor
    the puppets. *)
Lemma Stop_persist_users_error w err :
  w_SaveUsers w = Some err →
  (Call SavePortals ∉ trace (Stop_persist w))
  ∧ (Call SavePuppets ∉ trace (Stop_persist w)).
Proof.
  intros Hu. unfold Stop_persist. rewrite Hu.
  destruct (w_StateStore_Save w); run; split; intros H; absurd_elem H.
Qed.

(** When the portals cannot be saved, the puppets are not attempted, and
    the warning names the puppets. *)
Lemma Stop_persist_portals_error w err :
  w_SaveUsers w = None → w_SavePortals w = Some err →
  (Call SavePuppets ∉ trace (Stop_persist w))
  ∧ (LogLine Warn ("Failed to save puppets:" +:+ " " +:+ err)
       ∈ trace (Stop_persist w)).
Proof.
  intros Hu Hp. unfold Stop_persist. rewrite Hu, Hp.
  destruct (w_StateStore_Save w); run; (split; [intros H; absurd_elem H|in_list]).
Qed.

(** C2. At shutdown with a failing save of the users, the state store and the
    users are the only saves attempted: the error of [SaveUsers] ends the
    chain, and neither [SavePortals] nor [SavePuppets] is called. *)
Theorem Stop_users_save_error_skips_portals_and_puppets :
  w_SaveUsers world_users_unsaved
    = Some "write users.json: no space left on device"
  ∧ trace (Stop_persist world_users_unsaved)
    = [Call StateStore_Save; Call SaveUsers;
       LogLine Warn
         "Failed to save users: write users.json: no space left on device"]
  ∧ (Call SavePortals ∉ trace (Stop world_users_unsaved sample_bridge))
  ∧ (Call SavePuppets ∉ trace (Stop world_users_unsaved sample_bridge)).
Proof.
  split; [reflexivity|]. split; [reflexivity|].
  split; refine (bool_decide_unpack _ _); vm_compute; exact I.
Qed.

(** ** The bot profile *)

(** What [UpdateBotProfile] passes to [SetDisplayName], for every
    configuration: the test that decides whether the configured name is set
    reads the avatar. *)
Lemma UpdateBotProfile_displayname_calls w bridge :
  displayname_calls (trace (UpdateBotProfile w bridge)) =
  let botConfig := Bot_config (Config bridge) in
  if String.eqb (Displayname botConfig) "remove" then [""]
  else if (0 <? String.length (Avatar botConfig))%nat
       then [Displayname botConfig]
       else [].
Proof.
  unfold UpdateBotProfile. cbv zeta.
  destruct (String.eqb (Avatar (Bot_config (Config bridge))) "remove");
    destruct (0 <? String.length (Avatar (Bot_config (Config bridge))))%nat;
    destruct (String.eqb (Displayname (Bot_config (Config bridge))) "remove");
    run;
    repeat match goal with
           | |- context [match ?e with Some _ => _ | None => _ end] =>
               destruct e; run
           end;
    reflexivity.
Qed.

(** C1. With an empty avatar and the display name "WhatsApp bridge bot",
    [UpdateBotProfile] makes no call that sets the display name; with an
    avatar and an empty display name it calls [SetDisplayName] with the
    empty name. *)
Theorem UpdateBotProfile_displayname_follows_avatar :
  trace (UpdateBotProfile sample_world (bot_bridge "WhatsApp bridge bot" ""))
    = [LogLine Debug "Updating bot profile"]
  ∧ trace (UpdateBotProfile sample_world
             (bot_bridge "" "mxc://maunium.net/avatar"))
    = [LogLine Debug "Updating bot profile";
       Call (Bot_SetAvatarURL "mxc://maunium.net/avatar");
       Call (Bot_SetDisplayName "")].
Proof. split; reflexivity. Qed.

(** ** [Init] and [Start] *)

(** Every call of [Init] and every [go] of [Start] is an event that
    [starts_subsystem] recognises, and [Init] begins with one. *)
Lemma Init_calls_start_subsystems w bridge e :
  e ∈ trace (Init w bridge) →
  match e with
  | Call _ | Go _ => starts_subsystem e = true
  | _ => True
  end.
Proof.
  unfold Init.
  destruct (w_MakeAppService w), (w_log_OpenFile w), (w_StateStore_Load w),
    (w_LoadUsers w), (w_LoadPortals w), (w_LoadPuppets w); run; intros H;
    repeat (apply elem_of_cons in H as [->|H]; [done|]);
    by apply elem_of_nil in H.
Qed.

Lemma Init_begins w bridge :
  ∃ rest, trace (Init w bridge) = Call Config_MakeAppService :: rest.
Proof.
  unfold Init. destruct (w_MakeAppService w); run; by eexists.
Qed.

Lemma Start_gos :
  trace Start =
  [LogLine Debug "Starting application service HTTP server"; Go T_AS_Start;
   LogLine Debug "Starting event processor"; Go T_EventProcessor_Start;
   Go T_UpdateBotProfile; Go T_StartUsers; Go T_SaveLoop]
  ∧ outcome Start = Returns tt.
Proof. split; reflexivity. Qed.

(** ** Registration *)

(** C5, as stated, fails when the help flag is given with [-g]: with a
    valid configuration and writable paths the process prints the help and
    exits, and saves neither the registration nor the configuration. *)
Lemma help_flag_generates_no_registration :
  generateRegistration (w_flags world_generate_help) = true
  ∧ w_config_Load world_generate_help "config.yaml" = inl sample_config
  ∧ w_NewRegistration world_generate_help = None
  ∧ w_Registration_Save world_generate_help "registration.yaml" = None
  ∧ w_Config_Save world_generate_help "config.yaml" = None
  ∧ main world_generate_help
    = ([Call flag_SetHelpTitles; Call flag_Parse; Call flag_PrintHelp], Exits 0)
  ∧ (Call (Registration_Save "registration.yaml")
       ∉ trace (main world_generate_help))
  ∧ (Call (Config_Save "config.yaml") ∉ trace (main world_generate_help)).
Proof.
  repeat (split; [reflexivity|]).
  split; refine (bool_decide_unpack _ _); vm_compute; exact I.
Qed.

(** C5, amended. When the flags parse, help is not asked for and [-g] is
    given, with a configuration that loads, a registration that can be made
    and two paths that can be written, the process saves the registration,
    then the configuration, prints its message and exits with code 0; no
    event of the run initialises or starts a subsystem. *)
Theorem generate_registration_saves_and_exits w cfg :
  w_flag_Parse w = None →
  wantHelp (w_flags w) = false →
  generateRegistration (w_flags w) = true →
  w_config_Load w (configPath (w_flags w)) = inl cfg →
  w_NewRegistration w = None →
  w_Registration_Save w (registrationPath (w_flags w)) = None →
  w_Config_Save w (configPath (w_flags w)) = None →
  main w =
    ([Call flag_SetHelpTitles; Call flag_Parse;
      Call (config_Load (configPath (w_flags w)));
      Call Config_NewRegistration;
      Call (Registration_Save (registrationPath (w_flags w)));
      Call (Config_Save (configPath (w_flags w)));
      Print Stdout "Registration generated. Add the path to the registration to your Synapse config, restart it, then start the bridge."],
     Exits 0)
  ∧ ∀ e, e ∈ trace (main w) → starts_subsystem e = false.
Proof.
  intros Hparse Hhelp Hgen Hload Hreg Hrs Hcs.
  assert (Hmain : main w =
    ([Call flag_SetHelpTitles; Call flag_Parse;
      Call (config_Load (configPath (w_flags w)));
      Call Config_NewRegistration;
      Call (Registration_Save (registrationPath (w_flags w)));
      Call (Config_Save (configPath (w_flags w)));
      Print Stdout "Registration generated. Add the path to the registration to your Synapse config, restart it, then start the bridge."],
     Exits 0)).
  { unfold main, NewBridge, Main, GenerateRegistration.
    rewrite Hparse, Hhelp, Hload. run. rewrite Hgen, Hreg, Hrs, Hcs.
    reflexivity. }
  split; [exact Hmain|]. rewrite Hmain. intros e H. run in H.
  repeat (apply elem_of_cons in H as [->|H]; [reflexivity|]).
  by apply elem_of_nil in H.
Qed.

Lemma generate_registration_saves_and_exits_witness :
  w_flag_Parse world_generate = None
  ∧ wantHelp (w_flags world_generate) = false
  ∧ generateRegistration (w_flags world_generate) = true
  ∧ main world_generate =
      ([Call flag_SetHelpTitles; Call flag_Parse;
        Call (config_Load "config.yaml");
        Call Config_NewRegistration;
        Call (Registration_Save "registration.yaml");
        Call (Config_Save "config.yaml");
        Print Stdout "Registration generated. Add the path to the registration to your Synapse config, restart it, then start the bridge."],
       Exits 0)
  ∧ ∀ e, e ∈ trace (main world_generate) → starts_subsystem e = false.
Proof.
  do 3 (split; [reflexivity|]).
  apply (generate_registration_saves_and_exits world_generate sample_config);
    reflexivity.
Defined.

(** ** Configuration that cannot be loaded *)

(** C6, as stated, fails when the help flag is given: the configuration
    cannot be read, and the process exits with code 0. *)
Lemma help_flag_with_unreadable_config_exits_0 :
  w_config_Load world_missing_config_help
    (configPath (w_flags world_missing_config_help))
  = inr "open missing.yaml: no such file or directory"
  ∧ outcome (main world_missing_config_help) = Exits 0
  ∧ outcome (main world_missing_config_help) ≠ Exits 10.
Proof. repeat split; try reflexivity. discriminate. Qed.

(** C6, amended. With a configuration that cannot be loaded the process
    writes no file, whatever the other flags; it exits with code 10 when the
    flags parse and help is not asked for (with code 1 when the flags do not
    parse, with code 0 when help is asked for). *)
Theorem main_unreadable_config w err :
  w_config_Load w (configPath (w_flags w)) = inr err →
  (∀ e, e ∈ trace (main w) → writes_file e = false)
  ∧ outcome (main w) =
      Exits match w_flag_Parse w with
            | Some _ => 1
            | None => if wantHelp (w_flags w) then 0 else 10
            end
  ∧ (w_flag_Parse w = None → wantHelp (w_flags w) = false →
     main w = ([Call flag_SetHelpTitles; Call flag_Parse;
                Call (config_Load (configPath (w_flags w)));
                Print Stderr ("Failed to load config:" +:+ " " +:+ err)],
               Exits 10)).
Proof.
  intros Hload. unfold main, NewBridge. rewrite Hload.
  destruct (w_flag_Parse w) as [perr|]; [|destruct (wantHelp (w_flags w))];
    run; (split; [|split; [reflexivity|]]); try (intros; discriminate);
    try (intros; reflexivity);
    intros e H;
    repeat (apply elem_of_cons in H as [->|H]; [reflexivity|]);
    by apply elem_of_nil in H.
Qed.

Lemma main_unreadable_config_witness :
  w_config_Load world_missing_config (configPath (w_flags world_missing_config))
  = inr "open missing.yaml: no such file or directory"
  ∧ (∀ e, e ∈ trace (main world_missing_config) → writes_file e = false)
  ∧ outcome (main world_missing_config) = Exits 10.
Proof.
  split; [reflexivity|].
  destruct (main_unreadable_config world_missing_config
              "open missing.yaml: no such file or directory" eq_refl)
    as (Hw & Ho & _).
  split; [exact Hw|exact Ho].
Defined.

(** ** [Stop] never ends the process *)

Lemma Stop_disconnect_no_exit w entries : ∀ us code,
  outcome (Stop_disconnect w entries us) ≠ Exits code.
Proof.
  induction entries as [|[k p] rest IH]; intros us code; [discriminate|].
  simpl. destruct (us !! p) as [user|]; [|discriminate].
  destruct (Conn user) as [conn|]; [destruct (w_Disconnect w conn)|];
    unfold SetSession; run; apply IH.
Qed.

Lemma Stop_no_exit w bridge code : outcome (Stop w bridge) ≠ Exits code.
Proof.
  unfold Stop. destruct (chan_send (stopSaveLoop bridge) true); [|discriminate].
  run.
  pose proof (Stop_disconnect_no_exit w
                (w_range w (usersByJID (registry bridge)))
                (users (registry bridge)) code) as Hloop.
  destruct (Stop_disconnect w _ _) as [t [us| | |]]; run; try discriminate.
  - pose proof (Stop_persist_returns w) as Hret.
    destruct (Stop_persist w) as [t' o]. simpl in Hret. subst o. discriminate.
  - intros [= ->]. by destruct Hloop.
Qed.

Lemma suffix_cons {A} (x : A) (l s : list A) :
  (∃ pre, l = pre ++ s) → ∃ pre, x :: l = pre ++ s.
Proof. intros [pre ->]. by exists (x :: pre). Qed.

(** ** The log file *)

(** C10. The process exits with code 12 exactly when it attempts to open the
    log file and that fails; the app-service has then been set up, the run
    ends with the message on the standard error, and the state store is not
    loaded. *)
Theorem log_file_failure_exits_12 w :
  (outcome (main w) = Exits 12 ↔
   Call log_OpenFile ∈ trace (main w) ∧ is_Some (w_log_OpenFile w))
  ∧ (Call log_OpenFile ∈ trace (main w) → ∀ err, w_log_OpenFile w = Some err →
     (∃ pre, trace (main w) =
             pre ++ [Call Config_MakeAppService; Call AS_Init; Call AS_BotIntent;
                     Call log_Create; Call Logging_Configure; Call log_OpenFile;
                     Print Stderr ("Failed to open log file:" +:+ " " +:+ err)])
     ∧ Call StateStore_Load ∉ trace (main w)).
Proof.
  unfold main, NewBridge, Main, Init, GenerateRegistration.
  destruct (w_flag_Parse w);
    [run; split; [split; [discriminate|intros [H _]; absurd_elem H]
                 |intros H; absurd_elem H]|].
  destruct (wantHelp (w_flags w));
    [run; split; [split; [discriminate|intros [H _]; absurd_elem H]
                 |intros H; absurd_elem H]|].
  destruct (w_config_Load w _);
    [|run; split; [split; [discriminate|intros [H _]; absurd_elem H]
                  |intros H; absurd_elem H]].
  destruct (generateRegistration (w_flags w)).
  { destruct (w_NewRegistration w);
      [run; split; [split; [discriminate|intros [H _]; absurd_elem H]
                   |intros H; absurd_elem H]|].
    destruct (w_Registration_Save w _);
      [run; split; [split; [discriminate|intros [H _]; absurd_elem H]
                   |intros H; absurd_elem H]|].
    destruct (w_Config_Save w _);
      run; (split; [split; [discriminate|intros [H _]; absurd_elem H]
                   |intros H; absurd_elem H]). }
  destruct (w_MakeAppService w);
    [run; split; [split; [discriminate|intros [H _]; absurd_elem H]
                 |intros H; absurd_elem H]|].
  destruct (w_log_OpenFile w) as [lerr|] eqn:Hlog.
  { run. split.
    - split; [intros _; split; [in_list|by eexists]|reflexivity].
    - intros _ err [= <-]. split.
      + by exists [Call flag_SetHelpTitles; Call flag_Parse;
                   Call (config_Load (configPath (w_flags w)))].
      + intros H; absurd_elem H. }
  split; [|intros _ err [=]].
  split; [|by intros [_ [? [=]]]].
  destruct (w_StateStore_Load w); [run; discriminate|].
  destruct (w_LoadUsers w); [run; discriminate|].
  destruct (w_LoadPortals w); [run; discriminate|].
  destruct (w_LoadPuppets w); [run; discriminate|].
  destruct (w_signal w); run; [|discriminate].
  match goal with
  | |- context [Stop ?w ?b] =>
      pose proof (Stop_no_exit w b 12) as Hstop;
      destruct (Stop w b) as [t [b'| | |]]
  end; run; try discriminate.
  intros [= ->]. by destruct Hstop.
Qed.

Lemma log_file_failure_exits_12_witness :
  Call log_OpenFile ∈ trace (main world_no_log)
  ∧ w_log_OpenFile world_no_log
    = Some "open logs/bridge.log: permission denied"
  ∧ outcome (main world_no_log) = Exits 12
  ∧ (Call StateStore_Load ∉ trace (main world_no_log)).
Proof.
  assert (Hin : Call log_OpenFile ∈ trace (main world_no_log))
    by (refine (bool_decide_unpack _ _); vm_compute; exact I).
  split; [exact Hin|]. split; [reflexivity|]. split.
  - apply (proj1 (log_file_failure_exits_12 world_no_log)).
    split; [exact Hin|by eexists].
  - exact (proj2 (proj2 (log_file_failure_exits_12 world_no_log) Hin _ eq_refl)).
Defined.

(** ** The end of the process *)

(** C7. Whenever the process has received the termination signal, with a
    registry whose users are objects, it ends with [os.Exit(0)], after the
    persistence steps of [Stop] and the line "Bridge stopped.": whatever
    the disconnects and the saves returned. *)
Theorem main_exits_0_after_signal w reg :
  GoRange w → w_signal w = Some reg → users_allocated reg →
  RecvSignal ∈ trace (main w) →
  outcome (main w) = Exits 0
  ∧ ∃ pre, trace (main w) =
           pre ++ trace (Stop_persist w) ++ [LogLine Info "Bridge stopped."].
Proof.
  intros Hrange Hsig Halloc.
  unfold main, NewBridge, Main, Init, GenerateRegistration.
  destruct (w_flag_Parse w); [run; intros H; absurd_elem H|].
  destruct (wantHelp (w_flags w)); [run; intros H; absurd_elem H|].
  destruct (w_config_Load w _) as [cfg|]; [|run; intros H; absurd_elem H].
  destruct (generateRegistration (w_flags w)).
  { destruct (w_NewRegistration w); [run; intros H; absurd_elem H|].
    destruct (w_Registration_Save w _); [run; intros H; absurd_elem H|].
    destruct (w_Config_Save w _); run; intros H; absurd_elem H. }
  destruct (w_MakeAppService w); [run; intros H; absurd_elem H|].
  destruct (w_log_OpenFile w); [run; intros H; absurd_elem H|].
  destruct (w_StateStore_Load w); [run; intros H; absurd_elem H|].
  destruct (w_LoadUsers w); [run; intros H; absurd_elem H|].
  destruct (w_LoadPortals w); [run; intros H; absurd_elem H|].
  destruct (w_LoadPuppets w); [run; intros H; absurd_elem H|].
  rewrite Hsig. intros _. run.
  rewrite (Stop_run w (with_registry (mkBridge cfg empty_registry (make_chan 1)) reg)
             (mkChan 1 [true]) eq_refl Hrange Halloc).
  run. split; [reflexivity|].
  repeat apply suffix_cons. rewrite <- ?app_assoc. by eexists.
Qed.

Lemma main_exits_0_after_signal_witness :
  GoRange sample_world
  ∧ w_signal sample_world = Some sample_registry
  ∧ users_allocated sample_registry
  ∧ RecvSignal ∈ trace (main sample_world)
  ∧ outcome (main sample_world) = Exits 0
  ∧ ∃ pre, trace (main sample_world) =
           pre ++ trace (Stop_persist sample_world)
           ++ [LogLine Info "Bridge stopped."].
Proof.
  assert (Hin : RecvSignal ∈ trace (main sample_world))
    by (refine (bool_decide_unpack _ _); vm_compute; exact I).
  split; [exact sample_GoRange|]. split; [reflexivity|].
  split; [exact sample_users_allocated|]. split; [exact Hin|].
  apply (main_exits_0_after_signal sample_world sample_registry).
  - exact sample_GoRange.
  - reflexivity.
  - exact sample_users_allocated.
  - exact Hin.
Defined.

(** The same holds when the users cannot be saved: the exit code is 0. *)
Example main_exits_0_when_save_fails :
  outcome (main world_users_unsaved) = Exits 0.
Proof. vm_compute. reflexivity. Qed.

(** ** The stop signal of the autosave loop *)

(** A loop that has stopped stays as it is. *)
Lemma SaveLoop_stopped st sels :
  loop_running st = false → SaveLoop st sels = st.
Proof.
  intros Hst. unfold SaveLoop. induction sels as [|sel sels IH]; [done|].
  simpl. unfold SaveLoop_step at 2. by rewrite Hst.
Qed.

(** While nothing is buffered in the stop channel the loop keeps running and
    leaves the channel as it is: it only receives. *)
Lemma SaveLoop_without_signal sels : ∀ st,
  loop_running st = true → chan_buf (loop_stop st) = [] →
  loop_running (SaveLoop st sels) = true
  ∧ loop_stop (SaveLoop st sels) = loop_stop st.
Proof.
  unfold SaveLoop. induction sels as [|sel sels IH]; intros st Hrun Hbuf; [done|].
  simpl. unfold SaveLoop_step at 2 4. rewrite Hrun. unfold chan_recv.
  rewrite Hbuf. destruct (tick_pending sel).
  - destruct (IH (mkLoopState true (loop_stop st) (false, false, false)
                    (loop_saved st ++ tick_saves (loop_flags st)))
                eq_refl Hbuf) as [H1 H2].
    split; [exact H1|exact H2].
  - by apply IH.
Qed.

(** Once one value is buffered, the loop stops at the first [select] that
    takes the stop case, and the value is consumed. *)
Lemma SaveLoop_with_signal sels : ∀ st v,
  loop_running st = true → chan_buf (loop_stop st) = [v] →
  Exists (λ sel, takes_stop sel = true) sels →
  loop_running (SaveLoop st sels) = false
  ∧ chan_buf (loop_stop (SaveLoop st sels)) = [].
Proof.
  induction sels as [|sel sels IH]; intros st v Hrun Hbuf Hex;
    [by apply Exists_nil in Hex|].
  change (SaveLoop st (sel :: sels)) with (SaveLoop (SaveLoop_step st sel) sels).
  unfold SaveLoop_step. rewrite Hrun. unfold chan_recv. rewrite Hbuf.
  destruct (takes_stop sel) eqn:Htake.
  - by rewrite SaveLoop_stopped.
  - apply Exists_cons in Hex as [Hex|Hex]; [congruence|].
    by apply (IH _ v).
Qed.

(** Until a [select] takes the stop case, the value stays buffered and the
    stop case stays ready. *)
Lemma SaveLoop_signal_kept sels : ∀ st v,
  loop_running st = true → chan_buf (loop_stop st) = [v] →
  Forall (λ sel, takes_stop sel = false) sels →
  loop_running (SaveLoop st sels) = true
  ∧ chan_buf (loop_stop (SaveLoop st sels)) = [v].
Proof.
  induction sels as [|sel sels IH]; intros st v Hrun Hbuf Hall; [done|].
  change (SaveLoop st (sel :: sels)) with (SaveLoop (SaveLoop_step st sel) sels).
  apply Forall_cons in Hall as [Htake Hall].
  unfold SaveLoop_step. rewrite Hrun. unfold chan_recv. rewrite Hbuf, Htake.
  by apply (IH _ v).
Qed.

(** A send on [make(chan bool, 1)] with nothing buffered completes;
    on a channel made without buffer it would not, unless a receiver
    waits. *)
Lemma chan_send_empty c v :
  chan_buf c = [] → (0 < chan_cap c)%nat →
  chan_send c v = Some (mkChan (chan_cap c) [v]).
Proof.
  intros Hbuf Hcap. unfold chan_send. rewrite Hbuf. simpl.
  by rewrite (proj2 (Nat.ltb_lt _ _) Hcap).
Qed.

Lemma chan_send_unbuffered v : chan_send (make_chan 0) v = None.
Proof. reflexivity. Qed.

Lemma NewBridge_stopSaveLoop w bridge :
  outcome (NewBridge w) = Returns bridge → stopSaveLoop bridge = make_chan 1.
Proof.
  unfold NewBridge. destruct (w_config_Load w _); run; [|discriminate].
  by intros [= <-].
Qed.

Lemma Stop_sends_first w bridge stop :
  chan_send (stopSaveLoop bridge) true = Some stop →
  (∃ rest, trace (Stop w bridge) = SendStop true :: rest)
  ∧ outcome (Stop w bridge) ≠ Blocks.
Proof.
  intros Hsend. unfold Stop. rewrite Hsend. run. split; [by eexists|].
  assert (Hloop : ∀ entries us,
             outcome (Stop_disconnect w entries us) ≠ Blocks).
  { induction entries as [|[k p] rest IH]; intros us; [discriminate|].
    simpl. destruct (us !! p) as [user|]; [|discriminate].
    destruct (Conn user) as [conn|]; [destruct (w_Disconnect w conn)|];
      unfold SetSession; run; apply IH. }
  specialize (Hloop (w_range w (usersByJID (registry bridge)))
                (users (registry bridge))).
  destruct (Stop_disconnect w _ _) as [t [us| | |]]; run; try discriminate.
  - pose proof (Stop_persist_returns w) as Hret.
    destruct (Stop_persist w) as [t' o]. simpl in Hret. subst o. discriminate.
  - by destruct Hloop.
Qed.

(** C9. On the bridge that [NewBridge] returns, the stop channel has
    capacity 1 and is empty.  However many iterations the autosave loop has
    run before the shutdown, it is still running and the channel is still
    empty; so [Stop] does not block, whatever the registry then holds.  Its
    first event is the send, and the bridge it returns holds the one value
    in the channel.  On that channel the loop stops at the first [select]
    that takes the stop case, which stays ready until then: no second send
    is needed. *)
Theorem stop_signal_sent_once w bridge pre post reg :
  outcome (NewBridge w) = Returns bridge →
  GoRange w → users_allocated reg →
  let running := SaveLoop (SaveLoop_start bridge) pre in
  let at_shutdown := mkBridge (Config bridge) reg (loop_stop running) in
  stopSaveLoop bridge = make_chan 1
  ∧ loop_running running = true
  ∧ (∀ reg', outcome (Stop w (mkBridge (Config bridge) reg' (loop_stop running)))
             ≠ Blocks)
  ∧ ∃ bridge' rest,
      Stop w at_shutdown = (SendStop true :: rest, Returns bridge')
      ∧ stopSaveLoop bridge' = mkChan 1 [true]
      ∧ (Exists (λ sel, takes_stop sel = true) post →
         loop_running (SaveLoop (signalled running (stopSaveLoop bridge')) post)
         = false
         ∧ chan_buf (loop_stop
                       (SaveLoop (signalled running (stopSaveLoop bridge')) post))
           = [])
      ∧ (Forall (λ sel, takes_stop sel = false) post →
         loop_running (SaveLoop (signalled running (stopSaveLoop bridge')) post)
         = true
         ∧ chan_buf (loop_stop
                       (SaveLoop (signalled running (stopSaveLoop bridge')) post))
           = [true]).
Proof.
  intros Hnew Hrange Halloc running at_shutdown.
  pose proof (NewBridge_stopSaveLoop _ _ Hnew) as Hchan.
  destruct (SaveLoop_without_signal pre (SaveLoop_start bridge) eq_refl)
    as [Hrun Hstop]; [by (simpl; rewrite Hchan)|].
  fold running in Hrun, Hstop. simpl in Hstop. rewrite Hchan in Hstop.
  split; [exact Hchan|]. split; [exact Hrun|]. split.
  { intros reg'.
    apply (Stop_sends_first w _ (mkChan 1 [true])). simpl. by rewrite Hstop. }
  assert (Hsend : chan_send (stopSaveLoop at_shutdown) true
                  = Some (mkChan 1 [true])).
  { unfold at_shutdown. simpl. by rewrite Hstop. }
  rewrite (Stop_run w at_shutdown _ Hsend Hrange Halloc).
  eexists _, _. split; [reflexivity|]. split; [reflexivity|]. simpl. split.
  - intros Hex.
    by apply (SaveLoop_with_signal post (signalled running (mkChan 1 [true])) true).
  - intros Hall.
    by apply (SaveLoop_signal_kept post (signalled running (mkChan 1 [true])) true).
Qed.

Lemma stop_signal_sent_once_witness :
  outcome (NewBridge sample_world)
    = Returns (mkBridge sample_config empty_registry (make_chan 1))
  ∧ GoRange sample_world
  ∧ users_allocated sample_registry
  ∧ ∃ bridge' rest,
      Stop sample_world (mkBridge sample_config sample_registry (make_chan 1))
      = (SendStop true :: rest, Returns bridge')
      ∧ stopSaveLoop bridge' = mkChan 1 [true]
      ∧ loop_running
          (SaveLoop (mkLoopState true (stopSaveLoop bridge') (false, false, false) [])
             [mkSelect true false; mkSelect false false; mkSelect true false])
        = false.
Proof.
  split; [reflexivity|]. split; [exact sample_GoRange|].
  split; [exact sample_users_allocated|].
  destruct (stop_signal_sent_once sample_world
              (mkBridge sample_config empty_registry (make_chan 1))
              [mkSelect true false; mkSelect false false; mkSelect true false]
              [mkSelect true false; mkSelect false false; mkSelect true false]
              sample_registry eq_refl sample_GoRange sample_users_allocated)
    as (_ & _ & _ & bridge' & rest & Hstop & Hchan & Hex & _).
  exists bridge', rest. split; [exact Hstop|]. split; [exact Hchan|].
  apply (proj1 (Hex ltac:(apply Exists_cons_tl, Exists_cons_hd; reflexivity))).
Defined.

(** * Further properties *)

(** ** [GenerateRegistration] *)

(** [GenerateRegistration] always ends the process: with code 20 when the
    registration cannot be made, 21 when it cannot be saved, 22 when the
    configuration cannot be saved, and 0 otherwise. *)
Theorem GenerateRegistration_exit_codes w bridge :
  outcome (GenerateRegistration w bridge) =
  Exits match w_NewRegistration w with
        | Some _ => 20
        | None =>
            match w_Registration_Save w (registrationPath (w_flags w)) with
            | Some _ => 21
            | None =>
                match w_Config_Save w (configPath (w_flags w)) with
                | Some _ => 22
                | None => 0
                end
            end
        end.
Proof.
  unfold GenerateRegistration.
  destruct (w_NewRegistration w); [reflexivity|].
  destruct (w_Registration_Save w _); [reflexivity|].
  destruct (w_Config_Save w _); reflexivity.
Qed.

(** [GenerateRegistration] writes a file only once the registration has
    been made, saves the configuration (at the [-c] path) only after the
    registration has been saved without error, and prints its final message
    exactly when it exits with code 0. *)
Theorem GenerateRegistration_saves_in_order w bridge :
  (∀ e, e ∈ trace (GenerateRegistration w bridge) → writes_file e = true →
        w_NewRegistration w = None)
  ∧ (∀ p, Call (Config_Save p) ∈ trace (GenerateRegistration w bridge) →
          p = configPath (w_flags w)
          ∧ w_Registration_Save w (registrationPath (w_flags w)) = None
          ∧ Call (Registration_Save (registrationPath (w_flags w)))
              ∈ trace (GenerateRegistration w bridge))
  ∧ (Print Stdout "Registration generated. Add the path to the registration to your Synapse config, restart it, then start the bridge."
       ∈ trace (GenerateRegistration w bridge)
     ↔ outcome (GenerateRegistration w bridge) = Exits 0).
Proof.
  unfold GenerateRegistration.
  destruct (w_NewRegistration w);
    [|destruct (w_Registration_Save w _); [|destruct (w_Config_Save w _)]];
    run; (split; [|split]).
  all: try (intros e H Hw;
            repeat (apply elem_of_cons in H as [->|H]; [try discriminate Hw; try reflexivity|]);
            try reflexivity; by apply elem_of_nil in H).
  all: try (intros p H;
            repeat (apply elem_of_cons in H as [H|H];
                    [first [discriminate H
                           |injection H as ->; split; [reflexivity|split; [reflexivity|in_list]]]|]);
            by apply elem_of_nil in H).
  all: split; try discriminate; try (intros _; reflexivity);
       try (intros H; absurd_elem H); try (intros _; in_list).
Qed.

Lemma GenerateRegistration_saves_in_order_witness :
  Call (Config_Save "config.yaml")
    ∈ trace (GenerateRegistration world_generate sample_bridge)
  ∧ w_Registration_Save world_generate "registration.yaml" = None
  ∧ Call (Registration_Save "registration.yaml")
      ∈ trace (GenerateRegistration world_generate sample_bridge).
Proof.
  assert (H : Call (Config_Save "config.yaml")
                ∈ trace (GenerateRegistration world_generate sample_bridge))
    by decide_elem.
  split; [exact H|].
  exact (proj2 (proj1 (proj2 (GenerateRegistration_saves_in_order
                                world_generate sample_bridge)) _ H)).
Defined.

(** ** [Init] *)

(** [Init] returns the bridge when its six fallible steps succeed;
    otherwise the first step that fails decides the exit code: 11 for the
    app-service, 12 for the log file, 13 for the state store, 14 for the
    users, 15 for the portals, 16 for the puppets. *)
Theorem Init_exit_codes w bridge :
  outcome (Init w bridge) =
  match w_MakeAppService w with
  | Some _ => Exits 11
  | None =>
  match w_log_OpenFile w with
  | Some _ => Exits 12
  | None =>
  match w_StateStore_Load w with
  | Some _ => Exits 13
  | None =>
  match w_LoadUsers w with
  | Some _ => Exits 14
  | None =>
  match w_LoadPortals w with
  | Some _ => Exits 15
  | None =>
  match w_LoadPuppets w with
  | Some _ => Exits 16
  | None => Returns bridge
  end end end end end end.
Proof.
  unfold Init.
  destruct (w_MakeAppService w); [reflexivity|].
  destruct (w_log_OpenFile w); [reflexivity|].
  destruct (w_StateStore_Load w); [reflexivity|].
  destruct (w_LoadUsers w); [reflexivity|].
  destruct (w_LoadPortals w); [reflexivity|].
  destruct (w_LoadPuppets w); reflexivity.
Qed.

Lemma Init_succeeds_Returns w bridge :
  outcome (Init w bridge) = Returns bridge ↔ Init_succeeds w = true.
Proof.
  rewrite Init_exit_codes. unfold Init_succeeds.
  destruct (w_MakeAppService w), (w_log_OpenFile w), (w_StateStore_Load w),
    (w_LoadUsers w), (w_LoadPortals w), (w_LoadPuppets w); simpl;
    split; (discriminate || reflexivity).
Qed.

(** A step of [Init] is attempted only when the steps before it succeeded,
    and the event processor, the Matrix handler and the formatter are
    constructed exactly when [Init] returns. *)
Theorem Init_fails_fast w bridge :
  (Call StateStore_Load ∈ trace (Init w bridge) →
   w_MakeAppService w = None ∧ w_log_OpenFile w = None)
  ∧ (Call LoadUsers ∈ trace (Init w bridge) → w_StateStore_Load w = None)
  ∧ (Call LoadPortals ∈ trace (Init w bridge) → w_LoadUsers w = None)
  ∧ (Call LoadPuppets ∈ trace (Init w bridge) → w_LoadPortals w = None)
  ∧ (Call NewEventProcessor ∈ trace (Init w bridge)
     ↔ outcome (Init w bridge) = Returns bridge)
  ∧ (Call NewMatrixHandler ∈ trace (Init w bridge)
     ↔ outcome (Init w bridge) = Returns bridge)
  ∧ (Call NewFormatter ∈ trace (Init w bridge)
     ↔ outcome (Init w bridge) = Returns bridge).
Proof.
  unfold Init.
  destruct (w_MakeAppService w), (w_log_OpenFile w), (w_StateStore_Load w),
    (w_LoadUsers w), (w_LoadPortals w), (w_LoadPuppets w); run;
    repeat split; try discriminate; try reflexivity;
    try (intros H; absurd_elem H); try (intros _; in_list);
    try (intros _; reflexivity);
    try match goal with H : _ ∈ _ |- _ => absurd_elem H end.
Qed.

Lemma Init_fails_fast_witness :
  Call LoadPortals ∈ trace (Init sample_world sample_bridge)
  ∧ w_LoadUsers sample_world = None.
Proof.
  assert (H : Call LoadPortals ∈ trace (Init sample_world sample_bridge))
    by decide_elem.
  split; [exact H|].
  destruct (Init_fails_fast sample_world sample_bridge) as (_ & _ & Hp & _).
  exact (Hp H).
Defined.

(** ** [UpdateBotProfile] *)

(** The avatar follows its own sentinel policy, whatever the display name
    and whatever the calls return: "remove" clears it, another non-empty
    value sets it, the empty value makes no call. *)
Theorem UpdateBotProfile_avatar_calls w bridge :
  avatar_calls (trace (UpdateBotProfile w bridge)) =
  let botConfig := Bot_config (Config bridge) in
  if String.eqb (Avatar botConfig) "remove" then [""]
  else if String.eqb (Avatar botConfig) "" then []
  else [Avatar botConfig].
Proof.
  unfold UpdateBotProfile. cbv zeta.
  destruct (Avatar (Bot_config (Config bridge))) as [|a s] eqn:Ha.
  - simpl.
    destruct (String.eqb (Displayname (Bot_config (Config bridge))) "remove");
      run; repeat match goal with
           | |- context [match ?e with Some _ => _ | None => _ end] =>
               destruct e; run
           end; reflexivity.
  - assert ((0 <? String.length (String a s))%nat = true) as -> by reflexivity.
    assert (String.eqb (String a s) "" = false) as -> by reflexivity.
    destruct (String.eqb (String a s) "remove");
    destruct (String.eqb (Displayname (Bot_config (Config bridge))) "remove");
      run; repeat match goal with
           | |- context [match ?e with Some _ => _ | None => _ end] =>
               destruct e; run
           end; reflexivity.
Qed.

(** [UpdateBotProfile] always returns, and every warning it logs reports
    the error of a call it has made: the error of the avatar update is never
    reported a second time as an error of the display name. *)
Theorem UpdateBotProfile_never_fatal w bridge :
  outcome (UpdateBotProfile w bridge) = Returns tt
  ∧ (∀ line, LogLine Warn line ∈ trace (UpdateBotProfile w bridge) →
       (∃ url err, Call (Bot_SetAvatarURL url) ∈ trace (UpdateBotProfile w bridge)
                   ∧ w_SetAvatarURL w url = Some err
                   ∧ line = "Failed to update bot avatar:" +:+ " " +:+ err)
       ∨ (∃ name err, Call (Bot_SetDisplayName name) ∈ trace (UpdateBotProfile w bridge)
                   ∧ w_SetDisplayName w name = Some err
                   ∧ line = "Failed to update bot displayname:" +:+ " " +:+ err)).
Proof.
  unfold UpdateBotProfile. cbv zeta.
  destruct (Avatar (Bot_config (Config bridge))) as [|a s] eqn:Ha;
    [change (String.eqb "" "remove") with false;
     change (0 <? String.length "")%nat with false
    |change (0 <? String.length (String a s))%nat with true;
     destruct (String.eqb (String a s) "remove")];
    destruct (String.eqb (Displayname (Bot_config (Config bridge))) "remove");
    run;
    repeat match goal with
           | |- context [match ?e with Some _ => _ | None => _ end] =>
               destruct e eqn:?; run
           end;
    (split; [reflexivity|]); intros line H;
    repeat (apply elem_of_cons in H as [H|H];
            [first [discriminate H
                   | injection H as ->;
                     first [left; eexists _, _; split; [in_list|split; [eassumption|reflexivity]]
                           |right; eexists _, _; split; [in_list|split; [eassumption|reflexivity]]]]|]);
    by apply elem_of_nil in H.
Qed.

Lemma UpdateBotProfile_never_fatal_witness :
  LogLine Warn "Failed to update bot avatar: M_FORBIDDEN"
    ∈ trace (UpdateBotProfile world_avatar_rejected sample_bridge)
  ∧ outcome (UpdateBotProfile world_avatar_rejected sample_bridge) = Returns tt
  ∧ ((∃ url err,
        Call (Bot_SetAvatarURL url)
          ∈ trace (UpdateBotProfile world_avatar_rejected sample_bridge)
        ∧ w_SetAvatarURL world_avatar_rejected url = Some err
        ∧ "Failed to update bot avatar: M_FORBIDDEN"
          = "Failed to update bot avatar:" +:+ " " +:+ err)
     ∨ (∃ name err,
        Call (Bot_SetDisplayName name)
          ∈ trace (UpdateBotProfile world_avatar_rejected sample_bridge)
        ∧ w_SetDisplayName world_avatar_rejected name = Some err
        ∧ "Failed to update bot avatar: M_FORBIDDEN"
          = "Failed to update bot displayname:" +:+ " " +:+ err)).
Proof.
  assert (H : LogLine Warn "Failed to update bot avatar: M_FORBIDDEN"
                ∈ trace (UpdateBotProfile world_avatar_rejected sample_bridge))
    by decide_elem.
  split; [exact H|].
  destruct (UpdateBotProfile_never_fatal world_avatar_rejected sample_bridge)
    as [Hret Hwarn].
  split; [exact Hret|exact (Hwarn _ H)].
Defined.

(** ** [Stop] *)

(** Whenever the loop returns, the objects are the [visited] ones. *)
Lemma Stop_disconnect_Returns w entries : ∀ us us',
  outcome (Stop_disconnect w entries us) = Returns us' →
  us' = visited w entries us.
Proof.
  induction entries as [|[k p] rest IH]; intros us us' Hret.
  - by injection Hret as <-.
  - destruct (us !! p) as [user|] eqn:Hp.
    + rewrite (Stop_disconnect_cons _ _ _ _ _ _ Hp) in Hret. simpl in Hret.
      by apply IH in Hret.
    + simpl in Hret. rewrite Hp in Hret. discriminate.
Qed.

Lemma Stop_Returns w bridge bridge' :
  outcome (Stop w bridge) = Returns bridge' →
  ∃ stop, chan_send (stopSaveLoop bridge) true = Some stop
    ∧ bridge' = mkBridge (Config bridge)
                  (with_users (registry bridge)
                     (visited w (w_range w (usersByJID (registry bridge)))
                        (users (registry bridge))))
                  stop.
Proof.
  unfold Stop. destruct (chan_send (stopSaveLoop bridge) true) as [stop|];
    [|discriminate].
  run. intros Hret. exists stop. split; [reflexivity|].
  pose proof (Stop_disconnect_Returns w
                (w_range w (usersByJID (registry bridge)))
                (users (registry bridge))) as Hloop.
  destruct (Stop_disconnect w _ _) as [t [us| | |]]; run in Hret;
    try discriminate.
  pose proof (Stop_persist_returns w) as Hper.
  destruct (Stop_persist w) as [t' o]. simpl in Hper. subst o.
  run in Hret. injection Hret as <-. by rewrite (Hloop us eq_refl).
Qed.

Lemma sample_Stop_returns :
  outcome (Stop sample_world sample_bridge) =
  Returns (mkBridge sample_config
             (with_users sample_registry
                (visited sample_world (map_to_list (usersByJID sample_registry))
                   (users sample_registry)))
             (mkChan 1 [true])).
Proof.
  by rewrite (Stop_run sample_world sample_bridge (mkChan 1 [true]) eq_refl
                sample_GoRange sample_users_allocated).
Defined.

Lemma flat_map_all_nil {A B} (f : A → list B) (l : list A) :
  (∀ x, x ∈ l → f x = []) → flat_map f l = [].
Proof.
  induction l as [|x l IH]; intros H; [done|]. simpl.
  rewrite (H x) by apply list_elem_of_here.
  apply IH. intros y Hy. apply H. by apply list_elem_of_further.
Qed.

(** With no user connected, [Stop] sends the stop signal, stops the
    app-service and the event processor and goes on to the persistence
    steps; the registry is left as it was. *)
Theorem Stop_without_sessions w bridge stop :
  chan_send (stopSaveLoop bridge) true = Some stop →
  GoRange w → users_allocated (registry bridge) →
  (∀ k p user, usersByJID (registry bridge) !! k = Some p →
               users (registry bridge) !! p = Some user → Conn user = None) →
  Stop w bridge =
  ([SendStop true; Call AS_Stop; Call EventProcessor_Stop]
   ++ trace (Stop_persist w),
   Returns (mkBridge (Config bridge) (registry bridge) stop)).
Proof.
  intros Hsend Hrange Halloc Hnone.
  rewrite (Stop_run _ _ _ Hsend Hrange Halloc).
  assert (Hin : ∀ k p, (k, p) ∈ w_range w (usersByJID (registry bridge)) →
                       usersByJID (registry bridge) !! k = Some p).
  { intros k p H. rewrite (Hrange _) in H. by apply elem_of_map_to_list in H. }
  rewrite flat_map_all_nil.
  2:{ intros [k p] H. unfold visit_events. simpl.
      destruct (users (registry bridge) !! p) as [user|] eqn:Hp; [|done].
      by rewrite (Hnone k p user (Hin _ _ H) Hp). }
  simpl. do 3 f_equal.
  assert (Hus : visited w (w_range w (usersByJID (registry bridge)))
                  (users (registry bridge)) = users (registry bridge)).
  { apply map_eq. intros p. rewrite visited_lookup.
    destruct (decide (p ∈ (w_range w (usersByJID (registry bridge))).*2))
      as [Hp|]; [|done].
    apply list_elem_of_fmap in Hp as ([k p'] & -> & Hkp). simpl.
    destruct (users (registry bridge) !! p') as [user|] eqn:Hu; [|done].
    simpl. unfold disconnected.
    by rewrite (Hnone k p' user (Hin _ _ Hkp) Hu). }
  rewrite Hus. by destruct (registry bridge).
Qed.

Lemma idle_users_allocated : users_allocated idle_registry.
Proof.
  unfold users_allocated. apply map_Forall_lookup. intros k p Hk.
  unfold idle_registry in *. simpl in *.
  apply lookup_insert_Some in Hk as [[_ <-]|[_ Hk]]; [by eexists|].
  by rewrite lookup_empty in Hk.
Defined.

Lemma idle_no_sessions k p user :
  usersByJID (registry idle_bridge) !! k = Some p →
  users (registry idle_bridge) !! p = Some user → Conn user = None.
Proof.
  simpl. intros Hk Hp.
  apply lookup_insert_Some in Hk as [[_ <-]|[_ Hk]];
    [|by rewrite lookup_empty in Hk].
  rewrite lookup_insert_eq in Hp. by injection Hp as <-.
Defined.

Lemma Stop_without_sessions_witness :
  chan_send (stopSaveLoop idle_bridge) true = Some (mkChan 1 [true])
  ∧ GoRange sample_world
  ∧ users_allocated (registry idle_bridge)
  ∧ Stop sample_world idle_bridge =
    ([SendStop true; Call AS_Stop; Call EventProcessor_Stop]
     ++ trace (Stop_persist sample_world),
     Returns (mkBridge (Config idle_bridge) (registry idle_bridge)
                (mkChan 1 [true]))).
Proof.
  split; [reflexivity|]. split; [exact sample_GoRange|].
  split; [exact idle_users_allocated|].
  exact (Stop_without_sessions sample_world idle_bridge (mkChan 1 [true])
           eq_refl sample_GoRange idle_users_allocated idle_no_sessions).
Defined.

(** The order in which [range] visits [usersByJID] does not matter: with
    another order [Stop] returns the same bridge, and its events are the
    same up to their order. *)
Theorem Stop_range_order_irrelevant w range bridge stop :
  chan_send (stopSaveLoop bridge) true = Some stop →
  GoRange w → GoRange (set_range w range) →
  users_allocated (registry bridge) →
  outcome (Stop (set_range w range) bridge) = outcome (Stop w bridge)
  ∧ trace (Stop (set_range w range) bridge) ≡ₚ trace (Stop w bridge).
Proof.
  intros Hsend Hrange Hrange' Halloc.
  rewrite (Stop_run _ _ _ Hsend Hrange Halloc),
          (Stop_run _ _ _ Hsend Hrange' Halloc).
  assert (Hperm : w_range (set_range w range) (usersByJID (registry bridge))
                  ≡ₚ w_range w (usersByJID (registry bridge))).
  { by rewrite (Hrange _), (Hrange' _). }
  simpl in *. split.
  - do 3 f_equal. apply map_eq. intros p. rewrite !visited_lookup.
    destruct (decide (p ∈ (range (usersByJID (registry bridge))).*2)) as [H1|H1];
      destruct (decide (p ∈ (w_range w (usersByJID (registry bridge))).*2))
        as [H2|H2]; try done.
    + rewrite Hperm in H1. contradiction.
    + rewrite <- Hperm in H2. contradiction.
  - unfold trace. simpl. do 3 constructor.
    apply Permutation_app; [|done].
    change (visit_events (set_range w range)) with (visit_events w).
    by apply Permutation_flat_map.
Qed.

Lemma reversed_GoRange :
  GoRange (set_range sample_world (λ m, reverse (map_to_list m))).
Proof. intros m. simpl. apply reverse_Permutation. Defined.

Lemma Stop_range_order_irrelevant_witness :
  GoRange sample_world
  ∧ GoRange (set_range sample_world (λ m, reverse (map_to_list m)))
  ∧ outcome (Stop world_reversed sample_bridge)
    = outcome (Stop sample_world sample_bridge)
  ∧ trace (Stop world_reversed sample_bridge)
    ≡ₚ trace (Stop sample_world sample_bridge).
Proof.
  split; [exact sample_GoRange|]. split; [exact reversed_GoRange|].
  exact (Stop_range_order_irrelevant sample_world
           (λ m, reverse (map_to_list m)) sample_bridge (mkChan 1 [true])
           eq_refl sample_GoRange reversed_GoRange sample_users_allocated).
Defined.

(** [Stop] is not to be run twice: on the bridge that a first [Stop] has
    returned the stop value is still buffered in the channel of capacity 1,
    and a second [Stop] blocks on its send before doing anything. *)
Theorem Stop_twice_blocks w w' bridge bridge' :
  chan_cap (stopSaveLoop bridge) = 1%nat →
  outcome (Stop w bridge) = Returns bridge' →
  Stop w' bridge' = ([], Blocks).
Proof.
  intros Hcap (stop & Hsend & ->)%Stop_Returns.
  unfold Stop. simpl. unfold chan_send in Hsend. rewrite Hcap in Hsend.
  destruct (chan_buf (stopSaveLoop bridge)) as [|v buf] eqn:Hbuf.
  - simpl in Hsend. injection Hsend as <-. reflexivity.
  - simpl in Hsend. destruct buf; discriminate.
Qed.

Lemma Stop_twice_blocks_witness :
  chan_cap (stopSaveLoop sample_bridge) = 1%nat
  ∧ ∃ bridge', outcome (Stop sample_world sample_bridge) = Returns bridge'
               ∧ Stop world_users_unsaved bridge' = ([], Blocks).
Proof.
  split; [reflexivity|]. eexists. split; [exact sample_Stop_returns|].
  exact (Stop_twice_blocks sample_world world_users_unsaved sample_bridge _
           eq_refl sample_Stop_returns).
Defined.

Lemma omap_all_None {A B} (f : A → option B) (l : list A) :
  (∀ x, x ∈ l → f x = None) → omap f l = [].
Proof.
  induction l as [|x l IH]; intros H; [done|]. simpl.
  rewrite (H x) by apply list_elem_of_here.
  apply IH. intros y Hy. apply H. by apply list_elem_of_further.
Qed.

Theorem Stop_persist_save_calls w :
  save_calls (trace (Stop_persist w)) =
  StateStore_Save :: SaveUsers ::
  match w_SaveUsers w with
  | Some _ => []
  | None => SavePortals ::
            match w_SavePortals w with
            | Some _ => []
            | None => [SavePuppets]
            end
  end.
Proof.
  unfold Stop_persist.
  destruct (w_StateStore_Save w), (w_SaveUsers w), (w_SavePortals w),
    (w_SavePuppets w); reflexivity.
Qed.

Lemma save_calls_visits w us entries :
  save_calls (flat_map (visit_events w us) entries) = [].
Proof.
  apply omap_all_None. intros e H.
  apply list_elem_of_In, in_flat_map in H as (entry & _ & H).
  apply list_elem_of_In in H. unfold visit_events in H.
  destruct (us !! entry.2) as [user|]; [|by apply elem_of_nil in H].
  destruct (Conn user) as [conn|]; [|by apply elem_of_nil in H].
  destruct (w_Disconnect w conn);
    repeat (apply elem_of_cons in H as [->|H]; [reflexivity|]);
    by apply elem_of_nil in H.
Qed.

(** The saves of a shutdown: the state store, then the users, whatever the
    state store returned; the portals only when the users were saved, and
    the puppets only when the portals were saved. *)
Theorem Stop_save_calls w bridge stop :
  chan_send (stopSaveLoop bridge) true = Some stop →
  GoRange w → users_allocated (registry bridge) →
  save_calls (trace (Stop w bridge)) =
  StateStore_Save :: SaveUsers ::
  match w_SaveUsers w with
  | Some _ => []
  | None => SavePortals ::
            match w_SavePortals w with
            | Some _ => []
            | None => [SavePuppets]
            end
  end.
Proof.
  intros Hsend Hrange Halloc.
  rewrite (Stop_run _ _ _ Hsend Hrange Halloc). unfold trace at 1. simpl.
  unfold save_calls at 1. simpl. rewrite omap_app.
  fold (save_calls (flat_map (visit_events w (users (registry bridge)))
                      (w_range w (usersByJID (registry bridge))))).
  rewrite save_calls_visits. simpl.
  apply Stop_persist_save_calls.
Qed.

Lemma unsaved_GoRange : GoRange world_users_unsaved.
Proof. intros m. reflexivity. Defined.

Lemma Stop_save_calls_witness :
  chan_send (stopSaveLoop sample_bridge) true = Some (mkChan 1 [true])
  ∧ GoRange world_users_unsaved
  ∧ users_allocated (registry sample_bridge)
  ∧ save_calls (trace (Stop world_users_unsaved sample_bridge))
    = [StateStore_Save; SaveUsers].
Proof.
  split; [reflexivity|]. split; [exact unsaved_GoRange|].
  split; [exact sample_users_allocated|].
  exact (Stop_save_calls world_users_unsaved sample_bridge (mkChan 1 [true])
           eq_refl unsaved_GoRange sample_users_allocated).
Defined.

Lemma Stop_disconnect_events w entries : ∀ us e,
  e ∈ trace (Stop_disconnect w entries us) → shutdown_event e = true.
Proof.
  induction entries as [|[k p] rest IH]; intros us e H.
  - by apply elem_of_nil in H.
  - simpl in H. destruct (us !! p) as [user|]; [|by apply elem_of_nil in H].
    destruct (Conn user) as [conn|]; [destruct (w_Disconnect w conn)|];
      unfold SetSession in H; run in H;
      repeat (apply elem_of_cons in H as [->|H]; [reflexivity|]);
      by apply IH in H.
Qed.

Lemma Stop_only_shutdown_events w bridge e :
  e ∈ trace (Stop w bridge) → shutdown_event e = true.
Proof.
  unfold Stop. destruct (chan_send (stopSaveLoop bridge) true);
    [|intros H; by apply elem_of_nil in H].
  run.
  pose proof (Stop_disconnect_events w
                (w_range w (usersByJID (registry bridge)))
                (users (registry bridge))) as Hloop.
  destruct (Stop_disconnect w _ _) as [t o]. unfold trace in Hloop. simpl in Hloop.
  assert (Hper : ∀ e, e ∈ trace (Stop_persist w) → shutdown_event e = true).
  { unfold Stop_persist.
    destruct (w_StateStore_Save w), (w_SaveUsers w), (w_SavePortals w),
      (w_SavePuppets w); run; intros e' H;
      repeat (apply elem_of_cons in H as [->|H]; [reflexivity|]);
      by apply elem_of_nil in H. }
  pose proof (Stop_persist_returns w) as Hret.
  destruct (Stop_persist w) as [t' o']. simpl in Hret, Hper. subst o'.
  destruct o; run; intros H;
    repeat (apply elem_of_cons in H as [->|H]; [reflexivity|]);
    repeat (apply elem_of_app in H as [H|H]);
    first [by apply Hloop | by apply Hper | by apply elem_of_nil in H].
Qed.

(** [Stop] does nothing but shutdown steps: every event of it, on every
    bridge and in every world, is the stop send, the stop of the app-service
    or of the event processor, a disconnect, a stored session, a save or a
    line written through the logger.  [Stop] makes no print call of its own,
    launches nothing and never ends the process. *)
Theorem Stop_events w bridge :
  (∀ e, e ∈ trace (Stop w bridge) → shutdown_event e = true)
  ∧ (∀ stream line, Print stream line ∉ trace (Stop w bridge))
  ∧ (∀ t, Go t ∉ trace (Stop w bridge))
  ∧ (∀ code, outcome (Stop w bridge) ≠ Exits code).
Proof.
  split; [intros e; apply Stop_only_shutdown_events|].
  split; [|split].
  - intros stream line H. by apply Stop_only_shutdown_events in H.
  - intros t H. by apply Stop_only_shutdown_events in H.
  - intros code. apply Stop_no_exit.
Qed.

Lemma Stop_events_witness :
  Call (Conn_Disconnect 2%positive) ∈ trace (Stop sample_world sample_bridge)
  ∧ shutdown_event (Call (Conn_Disconnect 2%positive)) = true
  ∧ (Print Stderr "Failed to save users" ∉ trace (Stop sample_world sample_bridge))
  ∧ outcome (Stop sample_world sample_bridge) ≠ Exits 0.
Proof.
  assert (H : Call (Conn_Disconnect 2%positive)
                ∈ trace (Stop sample_world sample_bridge)) by decide_elem.
  destruct (Stop_events sample_world sample_bridge) as (Hev & Hpr & _ & Hex).
  split; [exact H|]. split; [exact (Hev _ H)|].
  split; [apply Hpr|apply Hex].
Defined.

Lemma Stop_spawns_nothing w bridge : spawned (trace (Stop w bridge)) = [].
Proof.
  apply omap_all_None. intros e He. apply Stop_only_shutdown_events in He.
  by destruct e as [[]| | | | |].
Qed.

Lemma disconnect_calls_visits w us entries :
  disconnect_calls (flat_map (visit_events w us) entries)
  = omap (entry_Conn us) entries.
Proof.
  unfold disconnect_calls. induction entries as [|entry rest IH]; [done|].
  simpl. rewrite omap_app, IH. unfold visit_events, entry_Conn.
  destruct (us !! entry.2) as [user|]; simpl; [|done].
  destruct (Conn user) as [conn|]; simpl; [|done].
  by destruct (w_Disconnect w conn).
Qed.

Lemma disconnect_calls_app l1 l2 :
  disconnect_calls (l1 ++ l2) = disconnect_calls l1 ++ disconnect_calls l2.
Proof. apply omap_app. Qed.

Lemma disconnect_calls_persist w :
  disconnect_calls (trace (Stop_persist w)) = [].
Proof.
  unfold Stop_persist.
  destruct (w_StateStore_Save w), (w_SaveUsers w), (w_SavePortals w),
    (w_SavePuppets w); reflexivity.
Qed.

(** [Stop] asks each connection to disconnect once for each entry of
    [usersByJID] whose user holds it, and makes no other disconnect
    request. *)
Theorem Stop_disconnects_once w bridge stop :
  chan_send (stopSaveLoop bridge) true = Some stop →
  GoRange w → users_allocated (registry bridge) →
  disconnect_calls (trace (Stop w bridge))
  ≡ₚ omap (entry_Conn (users (registry bridge)))
       (map_to_list (usersByJID (registry bridge))).
Proof.
  intros Hsend Hrange Halloc.
  rewrite (Stop_run _ _ _ Hsend Hrange Halloc). unfold trace at 1.
  cbn [fst]. rewrite !disconnect_calls_app, disconnect_calls_visits,
    disconnect_calls_persist, app_nil_r.
  change (disconnect_calls [SendStop true; Call AS_Stop; Call EventProcessor_Stop])
    with (@nil ConnID).
  by rewrite (Hrange _).
Qed.

Lemma Stop_disconnects_once_witness :
  chan_send (stopSaveLoop sample_bridge) true = Some (mkChan 1 [true])
  ∧ GoRange sample_world
  ∧ users_allocated (registry sample_bridge)
  ∧ disconnect_calls (trace (Stop sample_world sample_bridge))
    ≡ₚ omap (entry_Conn (users (registry sample_bridge)))
         (map_to_list (usersByJID (registry sample_bridge))).
Proof.
  split; [reflexivity|]. split; [exact sample_GoRange|].
  split; [exact sample_users_allocated|].
  exact (Stop_disconnects_once sample_world sample_bridge (mkChan 1 [true])
           eq_refl sample_GoRange sample_users_allocated).
Defined.

(** ** [Main] and [main] *)

(** The outcomes of [main], by cases. *)
Lemma main_outcomes w :
  match outcome (main w) with
  | Returns _ => False
  | Exits code => code ∈ [0; 1; 10; 11; 12; 13; 14; 15; 16; 20; 21; 22]
  | Blocks => bridge_starts w = true ∧ w_signal w = None
  | Panics => ∃ reg, bridge_starts w = true ∧ w_signal w = Some reg
                     ∧ ¬ (GoRange w ∧ users_allocated reg)
  end.
Proof.
  unfold bridge_starts, reaches_Main, Init_succeeds.
  main_paths w ltac:(in_list).
  destruct (w_signal w) as [reg|] eqn:Hsig; run; [|done].
  match goal with
  | |- context [Stop ?w ?b] =>
      pose proof (Stop_no_exit w b) as Hexit;
      pose proof (Stop_sends_first w b (mkChan 1 [true]) eq_refl) as [_ Hblock];
      pose proof (λ Hr Ha, Stop_run w b (mkChan 1 [true]) eq_refl Hr Ha) as Hrun;
      destruct (Stop w b) as [t [b'| code | |]]
  end; run.
  - in_list.
  - by destruct (Hexit code).
  - by destruct Hblock.
  - exists reg. repeat split. intros [Hr Ha]. by specialize (Hrun Hr Ha).
Qed.

Lemma spawned_cons e l :
  spawned (e :: l) =
  match e with Go task => task :: spawned l | _ => spawned l end.
Proof. by destruct e. Qed.

Lemma spawned_app l1 l2 : spawned (l1 ++ l2) = spawned l1 ++ spawned l2.
Proof. apply omap_app. Qed.

(** The five subsystems are launched, in the order of [Start], exactly when
    the flags parse, help is not asked for, the configuration loads, [-g]
    is not given and [Init] succeeds; otherwise nothing is launched. *)
Theorem main_spawns w :
  spawned (trace (main w)) =
  if bridge_starts w
  then [T_AS_Start; T_EventProcessor_Start; T_UpdateBotProfile; T_StartUsers;
        T_SaveLoop]
  else [].
Proof.
  unfold bridge_starts, reaches_Main, Init_succeeds.
  main_paths w ltac:(reflexivity).
  destruct (w_signal w) as [reg|]; run; [|reflexivity].
  match goal with
  | |- context [Stop ?w ?b] =>
      pose proof (Stop_spawns_nothing w b) as Hnone;
      destruct (Stop w b) as [t o]
  end.
  unfold trace in Hnone. simpl in Hnone.
  destruct o; run; rewrite !spawned_cons, ?spawned_app, Hnone; reflexivity.
Qed.

(** The control of [main] never reaches the end of its body, and every code
    that it passes to [os.Exit] is one of 0, 1, 10-16 and 20-22. *)
Theorem main_exit_codes w :
  outcome (main w) ≠ Returns tt
  ∧ ∀ code, outcome (main w) = Exits code →
            code ∈ [0; 1; 10; 11; 12; 13; 14; 15; 16; 20; 21; 22].
Proof.
  pose proof (main_outcomes w) as H. split.
  - intros Hret. by rewrite Hret in H.
  - intros code Hexit. by rewrite Hexit in H.
Qed.

Lemma main_exit_codes_witness :
  outcome (main world_no_log) = Exits 12
  ∧ 12 ∈ [0; 1; 10; 11; 12; 13; 14; 15; 16; 20; 21; 22].
Proof.
  split; [reflexivity|].
  exact (proj2 (main_exit_codes world_no_log) 12 eq_refl).
Defined.

(** The main goroutine itself, that is the code that [main] runs and not
    the functions it launches with [go], makes a shutdown step (the stop
    send, a stop call, a disconnect, a stored session, a save) only when the
    bridge has started and the termination signal has been received. *)
Theorem main_saves_only_after_signal w e :
  e ∈ trace (main w) → shutdown_event e = true →
  (∀ l line, e ≠ LogLine l line) →
  bridge_starts w = true ∧ RecvSignal ∈ trace (main w).
Proof.
  unfold bridge_starts, reaches_Main, Init_succeeds.
  main_paths w ltac:(intros H Hs Hl;
    repeat (apply elem_of_cons in H as [->|H];
            [first [discriminate Hs | by destruct (Hl _ _ eq_refl)]|]);
    by apply elem_of_nil in H).
  destruct (w_signal w) as [reg|]; run;
    intros H Hs Hl; (split; [reflexivity|]).
  - in_list.
  - repeat (apply elem_of_cons in H as [->|H];
            [first [discriminate Hs | by destruct (Hl _ _ eq_refl)]|]);
    by apply elem_of_nil in H.
Qed.

Lemma main_saves_only_after_signal_witness :
  Call SaveUsers ∈ trace (main sample_world)
  ∧ shutdown_event (Call SaveUsers) = true
  ∧ bridge_starts sample_world = true
  ∧ RecvSignal ∈ trace (main sample_world).
Proof.
  assert (H : Call SaveUsers ∈ trace (main sample_world)) by decide_elem.
  split; [exact H|]. split; [reflexivity|].
  apply (main_saves_only_after_signal sample_world (Call SaveUsers) H eq_refl).
  intros l line. discriminate.
Defined.

(** With [-g], [Main] is [GenerateRegistration]: also when the generation
    fails, no subsystem is initialised or started. *)
Theorem Main_generate w bridge :
  generateRegistration (w_flags w) = true →
  Main w bridge = GenerateRegistration w bridge
  ∧ ∀ e, e ∈ trace (Main w bridge) → starts_subsystem e = false.
Proof.
  intros Hg. unfold Main. rewrite Hg. unfold GenerateRegistration.
  destruct (w_NewRegistration w);
    [|destruct (w_Registration_Save w _); [|destruct (w_Config_Save w _)]];
    run; (split; [reflexivity|]); intros e H;
    repeat (apply elem_of_cons in H as [->|H]; [reflexivity|]);
    by apply elem_of_nil in H.
Qed.

Lemma Main_generate_witness :
  generateRegistration (w_flags world_generate) = true
  ∧ Main world_generate sample_bridge
    = GenerateRegistration world_generate sample_bridge
  ∧ ∀ e, e ∈ trace (Main world_generate sample_bridge) →
         starts_subsystem e = false.
Proof.
  split; [reflexivity|].
  exact (Main_generate world_generate sample_bridge eq_refl).
Defined.

(** ** The start of the subsystems *)













